(** * logger: process-wide logging set-up (src/logger/__init__.py)

    A shallow embedding of the module [logger]: the record filter
    [ServiceNameFilter] and the one-shot routine [setup_logging], together
    with the part of CPython's [logging] package that [setup_logging]
    drives (the root logger, its handler list, level checks, [basicConfig]
    and the module-level [logging.info] / [logging.error]).

    Scope of the model.
    - Python [str] values are modelled by [string] restricted to ASCII
      text: [str.upper], [str.lower] and [int] act on the ASCII letters,
      digits and blanks; characters above 127 are outside the model.
    - The root logger is in the state the standard library gives it and
      that this module never changes: it is not [disabled], carries no
      logger-level filter, and [logging.disable] is not in force.
    - Text rendering of records (time stamps, [%]-formatting) and the
      bytes written to the streams are not modelled; a handler's [emit] is
      recorded as the pair of the handler and the record it was given.
    - Handlers are stream handlers and rotating file handlers; [close] on
      a handler does not raise.  Objects (handlers, filters) carry an
      identity drawn from a counter, since the library compares them by
      identity. *)

From Stdlib Require Import ZArith Ascii String List Bool Lia.
From stdpp Require Import base gmap strings list.
Import ListNotations.

Local Open Scope Z_scope.

(** ** Python strings (ASCII) *)

Module PyStr.

Definition code (c : ascii) : N := N_of_ascii c.

Definition is_lower (c : ascii) : bool := ((97 <=? code c) && (code c <=? 122))%N.
Definition is_upper (c : ascii) : bool := ((65 <=? code c) && (code c <=? 90))%N.
Definition is_digit (c : ascii) : bool := ((48 <=? code c) && (code c <=? 57))%N.

(** [\t \n \v \f \r] and the blank: what [int] strips from ASCII text. *)
Definition is_space (c : ascii) : bool :=
  (((9 <=? code c) && (code c <=? 13)) || (code c =? 32))%N.

(** [\w] of the [re] module on ASCII text. *)
Definition is_word (c : ascii) : bool :=
  is_lower c || is_upper c || is_digit c || (code c =? 95)%N.

Definition upper_char (c : ascii) : ascii :=
  if is_lower c then ascii_of_N (code c - 32) else c.
Definition lower_char (c : ascii) : ascii :=
  if is_upper c then ascii_of_N (code c + 32) else c.

(** [str.upper] and [str.lower]. *)
Fixpoint upper (s : string) : string :=
  match s with
  | EmptyString => EmptyString
  | String c t => String (upper_char c) (upper t)
  end.

Fixpoint lower (s : string) : string :=
  match s with
  | EmptyString => EmptyString
  | String c t => String (lower_char c) (lower t)
  end.

(** [str(b)] for a [bool]. *)
Definition of_bool (b : bool) : string := if b then "True" else "False".

(** Truth value of a string: the empty string is false. *)
Definition truthy (s : string) : bool := negb (String.eqb s "").

(** Case-insensitive equality, character by character: the comparison the
    specification speaks of, stated without [lower]. *)
Fixpoint eq_nocase (s t : string) : bool :=
  match s, t with
  | EmptyString, EmptyString => true
  | String a s', String b t' =>
      Ascii.eqb (lower_char a) (lower_char b) && eq_nocase s' t'
  | _, _ => false
  end.

End PyStr.

(** ** [int(s)] on a string

    Blanks are stripped on both sides; what remains is an optional sign
    followed by decimal digits, where single underscores may separate
    digits.  More than [max_str_digits] digits are refused
    ([sys.int_info.default_max_str_digits]). *)

Module PyInt.

Import PyStr.

Definition max_str_digits : nat := 4300.

Definition digit_val (c : ascii) : Z := Z.of_N (code c) - 48.

Fixpoint lstrip (l : list ascii) : list ascii :=
  match l with
  | c :: t => if is_space c then lstrip t else l
  | [] => []
  end.

Definition strip (l : list ascii) : list ascii :=
  rev (lstrip (rev (lstrip l))).

(** [digits_tail l acc n]: the input just after a digit; [acc] is the value
    and [n] the number of digits read so far. *)
Fixpoint digits_tail (l : list ascii) (acc : Z) (n : nat) : option (Z * nat) :=
  match l with
  | [] => Some (acc, n)
  | c :: t =>
      if is_digit c then digits_tail t (acc * 10 + digit_val c) (S n)
      else if (code c =? 95)%N then
        match t with
        | d :: t' =>
            if is_digit d then digits_tail t' (acc * 10 + digit_val d) (S n)
            else None
        | [] => None
        end
      else None
  end.

Definition digits (l : list ascii) : option Z :=
  match l with
  | c :: t =>
      if is_digit c then
        match digits_tail t (digit_val c) 1%nat with
        | Some (v, n) => if (n <=? max_str_digits)%nat then Some v else None
        | None => None
        end
      else None
  | [] => None
  end.

Definition signed (l : list ascii) : option Z :=
  match l with
  | c :: t =>
      if (code c =? 45)%N then Z.opp <$> digits t
      else if (code c =? 43)%N then digits t
      else digits l
  | [] => None
  end.

(** [int(s)]: [None] stands for [ValueError]. *)
Definition int (s : string) : option Z :=
  signed (strip (list_ascii_of_string s)).

End PyInt.

(** ** Exceptions and outcomes *)

Inductive exn : Type :=
| ValueError_int (literal : string)   (* int(): invalid literal *)
| ValueError_level (level : string)   (* logging._checkLevel: unknown level *)
| ValueError_format (fmt : string)    (* logging.Formatter: invalid format *)
| TypeError_level                     (* logging._checkLevel: neither int nor str *)
| OSError (detail : string).          (* a file-system call failed *)

Inductive outcome (A : Type) : Type :=
| Ok (a : A)
| Raise (e : exn).

Arguments Ok {A} a.
Arguments Raise {A} e.

Definition is_ok {A} (o : outcome A) : bool :=
  match o with Ok _ => true | Raise _ => false end.

(** ** Paths

    [pathlib] joins are kept symbolic: [ProjectRoot] is
    [Path(__file__).parent.parent] and [Join p s] is [p / s]. *)

Inductive path : Type :=
| ProjectRoot
| Join (p : path) (segment : string).

(** ** Log records *)

Inductive message : Type :=
| Text (s : string)
| FileFailure (target : path) (e : exn).
  (* f"Failed to configure file logging to {target}: {e}" *)

Record LogRecord : Type := mkRecord {
  levelno : Z;
  msg : message;
  exc_info : option exn;
  attrs : gmap string string   (* attributes attached after creation *)
}.

Definition setattr (k v : string) (r : LogRecord) : LogRecord :=
  {| levelno := levelno r; msg := msg r; exc_info := exc_info r;
     attrs := <[k := v]> (attrs r) |}.

(** ** class ServiceNameFilter(logging.Filter) *)

Module ServiceNameFilter.

Record t : Type := mk {
  ident : nat;            (* object identity *)
  name : string;          (* logging.Filter.name, set by super().__init__() *)
  service_name : string
}.

(** [__init__(self, service_name)] on the object allocated at [ident]. *)
Definition init (ident : nat) (service_name : string) : t :=
  {| ident := ident; name := ""; service_name := service_name |}.

(** [filter(self, record)]: the record after the assignment, and the
    returned truth value. *)
Definition filter (self : t) (record : LogRecord) : LogRecord * bool :=
  (setattr "service" (service_name self) record, true).

End ServiceNameFilter.

(** ** The [logging] package: values, levels, handlers *)

Inductive pyval : Type :=
| VInt (z : Z)
| VStr (s : string)
| VDict.

Definition CRITICAL : Z := 50.
Definition FATAL : Z := CRITICAL.
Definition ERROR : Z := 40.
Definition WARNING : Z := 30.
Definition WARN : Z := WARNING.
Definition INFO : Z := 20.
Definition DEBUG : Z := 10.
Definition NOTSET : Z := 0.
Definition BASIC_FORMAT : string := "%(levelname)s:%(name)s:%(message)s".

(** The names bound in module [logging] that contain no lower-case letter;
    only these can be the result of [str.upper]. *)
Definition logging_attr (name : string) : option pyval :=
  if String.eqb name "CRITICAL" then Some (VInt CRITICAL)
  else if String.eqb name "FATAL" then Some (VInt FATAL)
  else if String.eqb name "ERROR" then Some (VInt ERROR)
  else if String.eqb name "WARNING" then Some (VInt WARNING)
  else if String.eqb name "WARN" then Some (VInt WARN)
  else if String.eqb name "INFO" then Some (VInt INFO)
  else if String.eqb name "DEBUG" then Some (VInt DEBUG)
  else if String.eqb name "NOTSET" then Some (VInt NOTSET)
  else if String.eqb name "BASIC_FORMAT" then Some (VStr BASIC_FORMAT)
  else if String.eqb name "_STYLES" then Some VDict
  else None.

(** [getattr(logging, name, dflt)]. *)
Definition getattr_logging (name : string) (dflt : pyval) : pyval :=
  default dflt (logging_attr name).

(** [logging._nameToLevel]. *)
Definition nameToLevel (name : string) : option Z :=
  if String.eqb name "CRITICAL" then Some CRITICAL
  else if String.eqb name "FATAL" then Some FATAL
  else if String.eqb name "ERROR" then Some ERROR
  else if String.eqb name "WARN" then Some WARNING
  else if String.eqb name "WARNING" then Some WARNING
  else if String.eqb name "INFO" then Some INFO
  else if String.eqb name "DEBUG" then Some DEBUG
  else if String.eqb name "NOTSET" then Some NOTSET
  else None.

(** [logging._checkLevel]. *)
Definition checkLevel (level : pyval) : outcome Z :=
  match level with
  | VInt z => Ok z
  | VStr s =>
      match nameToLevel s with
      | Some z => Ok z
      | None => Raise (ValueError_level s)
      end
  | VDict => Raise TypeError_level
  end.

(** The severity names a level string is recognised by. *)
Definition severity_names : list string :=
  ["CRITICAL"; "FATAL"; "ERROR"; "WARNING"; "WARN"; "INFO"; "DEBUG"; "NOTSET"].

Definition is_severity_name (s : string) : bool :=
  existsb (PyStr.eq_nocase s) severity_names.

(** [PercentStyle.validation_pattern.search]:
    [%\(\w+\)[#0+ -]*(\*|\d+)?(\.(\*|\d+))?[diouxefgcrsa%]], ignoring case. *)
Module PercentStyle.

Import PyStr.

Fixpoint skip (p : ascii -> bool) (l : list ascii) : list ascii :=
  match l with
  | c :: t => if p c then skip p t else l
  | [] => []
  end.

Definition is_flag (c : ascii) : bool :=
  existsb (N.eqb (code c)) [35; 48; 43; 32; 45]%N.

Definition is_conversion (c : ascii) : bool :=
  existsb (Ascii.eqb (lower_char c))
    (list_ascii_of_string "diouxefgcrsa%").

Definition star_or_digits (l : list ascii) : option (list ascii) :=
  match l with
  | c :: t =>
      if (code c =? 42)%N then Some t
      else if is_digit c then Some (skip is_digit t)
      else None
  | [] => None
  end.

Definition width (l : list ascii) : list ascii :=
  default l (star_or_digits l).

Definition precision (l : list ascii) : option (list ascii) :=
  match l with
  | c :: t => if (code c =? 46)%N then star_or_digits t else Some l
  | [] => Some l
  end.

Definition conversion (l : list ascii) : bool :=
  match l with
  | c :: _ => is_conversion c
  | [] => false
  end.

(** The pattern matched at the head of [l]. *)
Definition match_here (l : list ascii) : bool :=
  match l with
  | p :: o :: w :: t =>
      (code p =? 37)%N && (code o =? 40)%N && is_word w &&
      match skip is_word t with
      | c :: t' =>
          (code c =? 41)%N &&
          match precision (width (skip is_flag t')) with
          | Some rest => conversion rest
          | None => false
          end
      | [] => false
      end
  | _ => false
  end.

Fixpoint search (l : list ascii) : bool :=
  match_here l ||
  match l with
  | _ :: t => search t
  | [] => false
  end.

Definition default_format : string := "%(message)s".

(** [PercentStyle(fmt)._fmt]: an empty format is replaced by the default. *)
Definition fmt_or_default (fmt : string) : string :=
  if truthy fmt then fmt else default_format.

Definition validate (fmt : string) : bool :=
  search (list_ascii_of_string fmt).

End PercentStyle.

(** [logging.Formatter(fmt)]: the format string the formatter holds, or
    [ValueError]. *)
Definition Formatter (fmt : string) : outcome string :=
  let f := PercentStyle.fmt_or_default fmt in
  if PercentStyle.validate f then Ok f else Raise (ValueError_format f).

Inductive stream : Type := Stdout | Stderr.

Inductive sink : Type :=
| StreamSink (s : stream)
| RotatingFileSink (filename : path) (maxBytes backupCount : Z)
    (encoding : string).

Record Handler : Type := mkHandler {
  hid : nat;                                  (* object identity *)
  hsink : sink;
  hlevel : Z;
  hformatter : option string;
  hfilters : list ServiceNameFilter.t
}.

Definition is_console (h : Handler) : bool :=
  match hsink h with StreamSink _ => true | _ => false end.
Definition is_file (h : Handler) : bool :=
  match hsink h with RotatingFileSink _ _ _ _ => true | _ => false end.

(** Where a record was emitted: an attached handler, or
    [logging.lastResort]. *)
Inductive target : Type :=
| ToHandler (h : nat)
| ToLastResort.

(** ** Process state *)

Record State : Type := mkState {
  is_configured : bool;                   (* logger._is_configured *)
  root_level : Z;                         (* logging.root.level *)
  root_handlers : list Handler;           (* logging.root.handlers *)
  closed : gset nat;                      (* handlers whose close() ran *)
  handled : list LogRecord;               (* records the root logger created *)
  emitted : list (target * LogRecord);    (* emit() calls, oldest first *)
  next_id : nat                           (* next free object identity *)
}.

Definition set_is_configured (b : bool) (st : State) : State :=
  mkState b (root_level st) (root_handlers st) (closed st) (handled st)
    (emitted st) (next_id st).
Definition set_root_level (l : Z) (st : State) : State :=
  mkState (is_configured st) l (root_handlers st) (closed st) (handled st)
    (emitted st) (next_id st).
Definition set_root_handlers (hs : list Handler) (st : State) : State :=
  mkState (is_configured st) (root_level st) hs (closed st) (handled st)
    (emitted st) (next_id st).
Definition add_closed (h : nat) (st : State) : State :=
  mkState (is_configured st) (root_level st) (root_handlers st)
    ({[h]} ∪ closed st) (handled st) (emitted st) (next_id st).
Definition add_handled (r : LogRecord) (st : State) : State :=
  mkState (is_configured st) (root_level st) (root_handlers st) (closed st)
    (handled st ++ [r]) (emitted st) (next_id st).
Definition add_emitted (t : target) (r : LogRecord) (st : State) : State :=
  mkState (is_configured st) (root_level st) (root_handlers st) (closed st)
    (handled st) (emitted st ++ [(t, r)]) (next_id st).
Definition bump_next_id (st : State) : State :=
  mkState (is_configured st) (root_level st) (root_handlers st) (closed st)
    (handled st) (emitted st) (S (next_id st)).

(** ** A state monad with exceptions

    A computation runs on the process state and either returns a value or
    raises; in both cases the state reached so far is kept. *)

Definition M (A : Type) : Type := State -> outcome A * State.

Definition ret {A} (a : A) : M A := fun st => (Ok a, st).

Definition bind {A B} (c : M A) (k : A -> M B) : M B :=
  fun st =>
    match c st with
    | (Ok a, st') => k a st'
    | (Raise e, st') => (Raise e, st')
    end.

Definition lift {A} (o : outcome A) : M A := fun st => (o, st).

Definition gets {A} (f : State -> A) : M A := fun st => (Ok (f st), st).

Definition modify (f : State -> State) : M unit := fun st => (Ok tt, f st).

(** [try: body  except Exception as e: handler e]. *)
Definition try_except {A} (body : M A) (handler : exn -> M A) : M A :=
  fun st =>
    match body st with
    | (Ok a, st') => (Ok a, st')
    | (Raise e, st') => handler e st'
    end.

Notation "x <- c1 ;; c2" := (bind c1 (fun x => c2))
  (at level 100, c1 at next level, right associativity).
Notation "c1 ;;; c2" := (bind c1 (fun _ => c2))
  (at level 100, right associativity).

(** Allocation of a fresh object. *)
Definition fresh : M nat :=
  fun st => (Ok (next_id st), bump_next_id st).

(** ** Operations of the [logging] package *)

(** [list.remove]: the first occurrence of the handler is dropped. *)
Fixpoint remove_first (h : nat) (hs : list Handler) : list Handler :=
  match hs with
  | [] => []
  | x :: t => if Nat.eqb (hid x) h then t else x :: remove_first h t
  end.

Definition attached (h : nat) (hs : list Handler) : bool :=
  existsb (fun x => Nat.eqb (hid x) h) hs.

(** [Logger.setLevel] on the root logger. *)
Definition root_setLevel (level : pyval) : M unit :=
  l <- lift (checkLevel level) ;;
  modify (set_root_level l).

(** [Logger.removeHandler] on the root logger. *)
Definition removeHandler (h : Handler) : M unit :=
  modify (fun st =>
    if attached (hid h) (root_handlers st)
    then set_root_handlers (remove_first (hid h) (root_handlers st)) st
    else st).

(** [Logger.addHandler] on the root logger. *)
Definition addHandler (h : Handler) : M unit :=
  modify (fun st =>
    if attached (hid h) (root_handlers st) then st
    else set_root_handlers (root_handlers st ++ [h]) st).

(** [Handler.close]. *)
Definition Handler_close (h : Handler) : M unit :=
  modify (add_closed (hid h)).

(** [Handler.setLevel]. *)
Definition Handler_setLevel (h : Handler) (level : pyval) : M Handler :=
  l <- lift (checkLevel level) ;;
  ret (mkHandler (hid h) (hsink h) l (hformatter h) (hfilters h)).

(** [Handler.setFormatter]. *)
Definition Handler_setFormatter (h : Handler) (fmt : string) : Handler :=
  mkHandler (hid h) (hsink h) (hlevel h) (Some fmt) (hfilters h).

(** [Filterer.addFilter]. *)
Definition Handler_addFilter (h : Handler) (f : ServiceNameFilter.t) : Handler :=
  if existsb (fun g => Nat.eqb (ServiceNameFilter.ident g)
                         (ServiceNameFilter.ident f)) (hfilters h)
  then h
  else mkHandler (hid h) (hsink h) (hlevel h) (hformatter h) (hfilters h ++ [f]).

(** [logging.StreamHandler(stream)]. *)
Definition StreamHandler (s : stream) : M Handler :=
  i <- fresh ;;
  ret (mkHandler i (StreamSink s) NOTSET None []).

(** [Filterer.filter]: the filters run in order on the one record object;
    the first false result stops the loop. *)
Fixpoint Filterer_filter (fs : list ServiceNameFilter.t) (r : LogRecord)
  : LogRecord * bool :=
  match fs with
  | [] => (r, true)
  | f :: fs' =>
      let '(r', result) := ServiceNameFilter.filter f r in
      if result then Filterer_filter fs' r' else (r', false)
  end.

(** [Handler.handle]: returns the record as the filters left it. *)
Definition Handler_handle (h : Handler) (r : LogRecord) : M LogRecord :=
  let '(r', rv) := Filterer_filter (hfilters h) r in
  if rv then modify (add_emitted (ToHandler (hid h)) r') ;;; ret r'
  else ret r'.

Fixpoint callHandlers_loop (hs : list Handler) (r : LogRecord) : M LogRecord :=
  match hs with
  | [] => ret r
  | h :: t =>
      if levelno r >=? hlevel h
      then r' <- Handler_handle h r ;; callHandlers_loop t r'
      else callHandlers_loop t r
  end.

(** [Logger.callHandlers] on the root logger. *)
Definition callHandlers (r : LogRecord) : M unit :=
  hs <- gets root_handlers ;;
  r' <- callHandlers_loop hs r ;;
  if (length hs =? 0)%nat
  then (if levelno r' >=? WARNING
        then modify (add_emitted ToLastResort r') else ret tt)
  else ret tt.

(** [logging.root.manager.disable]: 0 as long as [logging.disable] has not
    been called. *)
Definition manager_disable : Z := 0.

(** [Logger.isEnabledFor] on the root logger: a level at or below
    [manager.disable] is never enabled; otherwise the level is compared
    with the effective level, which for the root logger is its own. *)
Definition isEnabledFor (level : Z) (st : State) : bool :=
  if manager_disable >=? level then false
  else level >=? root_level st.

(** [Logger.log] on the root logger: [root.info], [root.error], ... *)
Definition root_log (level : Z) (m : message) (exc : option exn) : M unit :=
  enabled <- gets (isEnabledFor level) ;;
  if enabled
  then
    let r := mkRecord level m exc ∅ in
    modify (add_handled r) ;;;
    callHandlers r
  else ret tt.

(** [logging.basicConfig()] without arguments. *)
Definition basicConfig : M unit :=
  hs <- gets root_handlers ;;
  if (length hs =? 0)%nat
  then
    h <- StreamHandler Stderr ;;
    fmt <- lift (Formatter BASIC_FORMAT) ;;
    addHandler (Handler_setFormatter h fmt)
  else ret tt.

(** The module-level [logging.info], [logging.error], ... *)
Definition logging_log (level : Z) (m : message) (exc : option exn) : M unit :=
  hs <- gets root_handlers ;;
  (if (length hs =? 0)%nat then basicConfig else ret tt) ;;;
  root_log level m exc.

Definition logging_error (m : message) (exc : option exn) : M unit :=
  logging_log ERROR m exc.
Definition logging_info (m : message) : M unit :=
  logging_log INFO m None.

(** ** Module [logger]: constants, arguments, environment *)

(** [config.constants.params.Params]: the constants provider.  Its source is
    not part of the module; the three constants read from it are taken as
    parameters. *)
Module Params.
Record t : Type := mk {
  log_level : string;
  log_dir_name : string;
  log_filename : string
}.
End Params.

(** The arguments of [setup_logging]; [None] is Python's [None]. *)
Module Args.
Record t : Type := mk {
  service_name : string;
  level : option string;
  log_to_console : option bool;
  log_to_file : option bool;
  log_dir : option string;
  log_filename : option string;
  log_format : option string;
  max_bytes : option Z;
  backup_count : option Z
}.

(** A call that passes no argument. *)
Definition defaults : t :=
  mk "default_service" None None None None None None None None.
End Args.

(** What the routine reads from outside the process state: [os.environ],
    the constants, and the outcome of the two file-system calls ([None]:
    the call succeeds). *)
Record World : Type := mkWorld {
  environ : gmap string string;
  params : Params.t;
  mkdir : path -> option exn;       (* Path.mkdir(parents=True, exist_ok=True) *)
  open_file : path -> option exn    (* the open() in RotatingFileHandler *)
}.

Definition DEFAULT_LOG_LEVEL (w : World) : string := Params.log_level (params w).
Definition DEFAULT_LOG_FORMAT : string :=
  "%(asctime)s - %(service)s - %(levelname)s - %(message)s".
Definition DEFAULT_LOG_DIR (w : World) : string := Params.log_dir_name (params w).
Definition DEFAULT_LOG_FILENAME (w : World) : string := Params.log_filename (params w).
Definition DEFAULT_LOG_MAX_BYTES : Z := 10 * 1024 * 1024.
Definition DEFAULT_LOG_BACKUP_COUNT : Z := 5.
Definition DEFAULT_LOG_TO_CONSOLE : bool := true.
Definition DEFAULT_LOG_TO_FILE : bool := true.

(** [os.environ.get(key, dflt)]. *)
Definition environ_get (w : World) (key dflt : string) : string :=
  default dflt (environ w !! key).

(** [a or b] on an optional string: [None] and the empty string are false. *)
Definition str_or (a : option string) (b : string) : string :=
  match a with
  | Some s => if PyStr.truthy s then s else b
  | None => b
  end.

(** [a or b] on an optional integer: [None] and [0] are false; [b] is only
    evaluated then. *)
Definition int_or (a : option Z) (b : outcome Z) : outcome Z :=
  match a with
  | Some n => if n =? 0 then b else Ok n
  | None => b
  end.

(** [int(s)] as a call: the value, or [ValueError]. *)
Definition parse_int (s : string) : outcome Z :=
  match PyInt.int s with
  | Some n => Ok n
  | None => Raise (ValueError_int s)
  end.

(** [int(os.environ.get(key, dflt))] with an integer default. *)
Definition environ_int (w : World) (key : string) (dflt : Z) : outcome Z :=
  match environ w !! key with
  | Some s => parse_int s
  | None => Ok dflt
  end.

(** [os.environ.get(key, str(dflt)).lower() == 'true']. *)
Definition environ_bool (w : World) (key : string) (dflt : bool) : bool :=
  String.eqb (PyStr.lower (environ_get w key (PyStr.of_bool dflt))) "true".

(** Lines 67-74, one definition per line. *)
Definition resolve_level (a : Args.t) (w : World) : string :=
  str_or (Args.level a) (environ_get w "LOG_LEVEL" (DEFAULT_LOG_LEVEL w)).
Definition resolve_format (a : Args.t) (w : World) : string :=
  str_or (Args.log_format a) (environ_get w "LOG_FORMAT" DEFAULT_LOG_FORMAT).
Definition resolve_console (a : Args.t) (w : World) : bool :=
  match Args.log_to_console a with
  | Some b => b
  | None => environ_bool w "LOG_TO_CONSOLE" DEFAULT_LOG_TO_CONSOLE
  end.
Definition resolve_file (a : Args.t) (w : World) : bool :=
  match Args.log_to_file a with
  | Some b => b
  | None => environ_bool w "LOG_TO_FILE" DEFAULT_LOG_TO_FILE
  end.
Definition resolve_dir (a : Args.t) (w : World) : string :=
  str_or (Args.log_dir a) (environ_get w "LOG_DIR" (DEFAULT_LOG_DIR w)).
Definition resolve_filename (a : Args.t) (w : World) : string :=
  str_or (Args.log_filename a)
    (environ_get w "LOG_FILENAME" (DEFAULT_LOG_FILENAME w)).
Definition resolve_max_bytes (a : Args.t) (w : World) : outcome Z :=
  int_or (Args.max_bytes a) (environ_int w "LOG_MAX_BYTES" DEFAULT_LOG_MAX_BYTES).
Definition resolve_backup_count (a : Args.t) (w : World) : outcome Z :=
  int_or (Args.backup_count a)
    (environ_int w "LOG_BACKUP_COUNT" DEFAULT_LOG_BACKUP_COUNT).

(** The resolved configuration: the local variables of [setup_logging]. *)
Record Config : Type := mkConfig {
  log_level_str : string;
  log_format_str : string;
  should_log_to_console : bool;
  should_log_to_file : bool;
  log_directory : string;
  log_file_name : string;
  max_log_bytes : Z;
  backup_log_count : Z
}.

Definition resolve (a : Args.t) (w : World) : outcome Config :=
  match resolve_max_bytes a w with
  | Raise e => Raise e
  | Ok mb =>
      match resolve_backup_count a w with
      | Raise e => Raise e
      | Ok bc =>
          Ok (mkConfig (resolve_level a w) (resolve_format a w)
                (resolve_console a w) (resolve_file a w)
                (resolve_dir a w) (resolve_filename a w) mb bc)
      end
  end.

(** [getattr(logging, log_level_str.upper(), logging.INFO)]. *)
Definition numeric_level (log_level_str : string) : pyval :=
  getattr_logging (PyStr.upper log_level_str) (VInt INFO).

(** The f-string of the closing record. *)
Definition summary (service_name : string) (cfg : Config) : string :=
  "Logging configured for service '" +:+ service_name +:+
  "'. Level: " +:+ log_level_str cfg +:+
  ", Console: " +:+ PyStr.of_bool (should_log_to_console cfg) +:+
  ", File: " +:+ PyStr.of_bool (should_log_to_file cfg).

(** ** [setup_logging] *)

(** [for handler in root_logger.handlers[:]: removeHandler; close]. *)
Fixpoint clear_handlers (copy : list Handler) : M unit :=
  match copy with
  | [] => ret tt
  | handler :: rest =>
      removeHandler handler ;;;
      Handler_close handler ;;;
      clear_handlers rest
  end.

Definition Path_mkdir (w : World) (p : path) : M unit :=
  match mkdir w p with
  | Some e => lift (Raise e)
  | None => ret tt
  end.

(** [logging.handlers.RotatingFileHandler(filename, maxBytes, backupCount,
    encoding)]: the file is opened by the constructor. *)
Definition RotatingFileHandler (w : World) (filename : path)
    (maxBytes backupCount : Z) (encoding : string) : M Handler :=
  match open_file w filename with
  | Some e => lift (Raise e)
  | None =>
      i <- fresh ;;
      ret (mkHandler i (RotatingFileSink filename maxBytes backupCount encoding)
             NOTSET None [])
  end.

(** Lines 101-107. *)
Definition console_block (cfg : Config) (formatter : string) (lvl : pyval)
    (service_filter : ServiceNameFilter.t) : M unit :=
  if should_log_to_console cfg then
    console_handler <- StreamHandler Stdout ;;
    let console_handler := Handler_setFormatter console_handler formatter in
    let console_handler := Handler_addFilter console_handler service_filter in
    console_handler <- Handler_setLevel console_handler lvl ;;
    addHandler console_handler
  else ret tt.

(** Lines 110-130. *)
Definition file_block (w : World) (cfg : Config) (formatter : string)
    (lvl : pyval) (service_filter : ServiceNameFilter.t) : M unit :=
  if should_log_to_file cfg then
    let log_path := Join ProjectRoot (log_directory cfg) in
    try_except
      (Path_mkdir w log_path ;;;
       let log_file_full_path := Join log_path (log_file_name cfg) in
       file_handler <- RotatingFileHandler w log_file_full_path
                         (max_log_bytes cfg) (backup_log_count cfg) "utf-8" ;;
       let file_handler := Handler_setFormatter file_handler formatter in
       file_handler <- Handler_setLevel file_handler lvl ;;
       let file_handler := Handler_addFilter file_handler service_filter in
       addHandler file_handler)
      (fun e =>
         logging_error
           (FileFailure (Join log_path (log_file_name cfg)) e) (Some e))
  else ret tt.

(** Lines 98-135: the filter, the two sinks, the flag and the closing
    record. *)
Definition attach_and_mark (a : Args.t) (w : World) (cfg : Config)
    (formatter : string) (lvl : pyval) : M unit :=
  i <- fresh ;;
  let service_filter := ServiceNameFilter.init i (Args.service_name a) in
  console_block cfg formatter lvl service_filter ;;;
  file_block w cfg formatter lvl service_filter ;;;
  modify (set_is_configured true) ;;;
  logging_info (Text (summary (Args.service_name a) cfg)).

(** Lines 66-135: the body run when the module is not yet configured. *)
Definition configure (a : Args.t) (w : World) : M unit :=
  cfg <- lift (resolve a w) ;;
  let lvl := numeric_level (log_level_str cfg) in
  root_setLevel lvl ;;;
  handlers <- gets root_handlers ;;
  clear_handlers handlers ;;;
  formatter <- lift (Formatter (log_format_str cfg)) ;;
  attach_and_mark a w cfg formatter lvl.

Definition setup_logging (a : Args.t) (w : World) : M unit :=
  configured <- gets is_configured ;;
  if configured then ret tt else configure a w.

(** A sequence of calls in one process, each with its own arguments and
    its own view of the outside world; a call that raises leaves the state
    it reached to the next one. *)
Fixpoint run_calls (calls : list (Args.t * World)) (st : State)
  : list (outcome unit) * State :=
  match calls with
  | [] => ([], st)
  | (a, w) :: rest =>
      let '(o, st') := setup_logging a w st in
      let '(os, st'') := run_calls rest st' in
      (o :: os, st'')
  end.

(** The state of a process that has imported the modules and done nothing
    else: the root logger is at [WARNING] and has no handler. *)
Definition initial_state : State :=
  mkState false WARNING [] ∅ [] [] 0.

(** A world with the given environment in which both file-system calls
    succeed, and one in which the directory cannot be created. *)
Definition sample_params : Params.t := Params.mk "INFO" "logs" "app.log".
Definition world_ok (env : gmap string string) : World :=
  mkWorld env sample_params (fun _ => None) (fun _ => None).
Definition world_mkdir_fails (env : gmap string string) : World :=
  mkWorld env sample_params
    (fun _ => Some (OSError "File exists")) (fun _ => None).

(** ** Notions used in the statements *)

Definition handler_ids (hs : list Handler) : gset nat :=
  list_to_set (hid <$> hs).

(** Every attached handler is an object allocated earlier. *)
Definition well_formed (st : State) : Prop :=
  Forall (fun h => (hid h < next_id st)%nat) (root_handlers st).

(** At most one console handler and at most one file handler. *)
Definition one_set_of_sinks (hs : list Handler) : Prop :=
  (length (List.filter is_console hs) <= 1)%nat /\
  (length (List.filter is_file hs) <= 1)%nat.

(** The exception of the file-sink construction, if it fails: first the
    directory, then the file. *)
Definition fs_failure (w : World) (cfg : Config) : option exn :=
  let log_path := Join ProjectRoot (log_directory cfg) in
  match mkdir w log_path with
  | Some e => Some e
  | None => open_file w (Join log_path (log_file_name cfg))
  end.

(** The handlers a run creates.  [k] is the first free object identity:
    the filter takes [k], the handlers the identities after it. *)
Definition console_handler_of (a : Args.t) (n : Z) (f : string) (k : nat)
  : Handler :=
  mkHandler (S k) (StreamSink Stdout) n (Some f)
    [ServiceNameFilter.init k (Args.service_name a)].

Definition file_handler_of (a : Args.t) (cfg : Config) (n : Z) (f : string)
    (k i : nat) : Handler :=
  mkHandler i
    (RotatingFileSink
       (Join (Join ProjectRoot (log_directory cfg)) (log_file_name cfg))
       (max_log_bytes cfg) (backup_log_count cfg) "utf-8")
    n (Some f) [ServiceNameFilter.init k (Args.service_name a)].

(** The handler [logging.basicConfig()] installs. *)
Definition basic_handler (i : nat) : Handler :=
  mkHandler i (StreamSink Stderr) NOTSET (Some BASIC_FORMAT) [].

Definition own_handlers (a : Args.t) (w : World) (cfg : Config) (n : Z)
    (f : string) (k : nat) : list Handler :=
  let console :=
    if should_log_to_console cfg then [console_handler_of a n f k] else [] in
  let file :=
    if should_log_to_file cfg then
      match fs_failure w cfg with
      | Some _ => []
      | None => [file_handler_of a cfg n f k (length console + S k)]
      end
    else [] in
  console ++ file.

Definition final_handlers (a : Args.t) (w : World) (cfg : Config) (n : Z)
    (f : string) (k : nat) : list Handler :=
  match own_handlers a w cfg n f k with
  | [] => [basic_handler (S k)]
  | hs => hs
  end.

(** The records the root logger creates during a run at numeric level [n]. *)
Definition error_records (w : World) (cfg : Config) (n : Z) : list LogRecord :=
  if should_log_to_file cfg then
    match fs_failure w cfg with
    | Some e =>
        if ERROR >=? n
        then [mkRecord ERROR
                (FileFailure
                   (Join (Join ProjectRoot (log_directory cfg)) (log_file_name cfg))
                   e)
                (Some e) ∅]
        else []
    | None => []
    end
  else [].

Definition info_records (a : Args.t) (cfg : Config) (n : Z) : list LogRecord :=
  if INFO >=? n
  then [mkRecord INFO (Text (summary (Args.service_name a) cfg)) None ∅]
  else [].

(** What the handlers [hs] emit for a record [r], in order. *)
Fixpoint deliver (hs : list Handler) (r : LogRecord) : list (target * LogRecord) :=
  match hs with
  | [] => []
  | h :: t =>
      if levelno r >=? hlevel h then
        let '(r', rv) := Filterer_filter (hfilters h) r in
        (if rv then [(ToHandler (hid h), r')] else []) ++ deliver t r'
      else deliver t r
  end.

(** The state a run that returns leaves behind. *)
Definition configured_state (a : Args.t) (w : World) (cfg : Config) (n : Z)
    (f : string) (st : State) : State :=
  let hs := final_handlers a w cfg n f (next_id st) in
  let rs := error_records w cfg n ++ info_records a cfg n in
  mkState true n hs (handler_ids (root_handlers st) ∪ closed st)
    (handled st ++ rs) (emitted st ++ flat_map (deliver hs) rs)
    (length hs + S (next_id st)).

(** The sixteen spellings of "true". *)
Definition spellings_of_true : list string :=
  ["true"; "truE"; "trUe"; "trUE"; "tRue"; "tRuE"; "tRUe"; "tRUE";
   "True"; "TruE"; "TrUe"; "TrUE"; "TRue"; "TRuE"; "TRUe"; "TRUE"].

(** A process in which two console handlers were installed by hand. *)
Definition cluttered_state : State :=
  mkState false WARNING
    [mkHandler 0 (StreamSink Stderr) NOTSET None [];
     mkHandler 1 (StreamSink Stdout) NOTSET None []]
    ∅ [] [] 2.

(** ** Notions used in the further properties *)

(** The six ranks a level name can stand for. *)
Definition standard_ranks : list Z :=
  [NOTSET; DEBUG; INFO; WARNING; ERROR; CRITICAL].

(** An optional argument with a false value read as absent. *)
Definition truthy_str (o : option string) : option string :=
  match o with
  | Some s => if PyStr.truthy s then Some s else None
  | None => None
  end.

Definition truthy_int (o : option Z) : option Z :=
  match o with
  | Some n => if n =? 0 then None else Some n
  | None => None
  end.

(** The arguments of a call with every empty string and every zero
    replaced by [None]; the two booleans are kept. *)
Definition drop_falsy (a : Args.t) : Args.t :=
  Args.mk (Args.service_name a) (truthy_str (Args.level a))
    (Args.log_to_console a) (Args.log_to_file a)
    (truthy_str (Args.log_dir a)) (truthy_str (Args.log_filename a))
    (truthy_str (Args.log_format a))
    (truthy_int (Args.max_bytes a)) (truthy_int (Args.backup_count a)).

(** The state a run is in when the formatter is refused: the level is set
    and the handlers are gone, nothing else has happened. *)
Definition stripped_state (n : Z) (st : State) : State :=
  mkState (is_configured st) n []
    (handler_ids (root_handlers st) ∪ closed st)
    (handled st) (emitted st) (next_id st).

(** * Properties *)

(** ** Strings *)

Section StringFacts.

Import PyStr.

Lemma upper_lower_char (c : ascii) : upper_char (lower_char c) = upper_char c.
Proof. destruct c as [[] [] [] [] [] [] [] []]; reflexivity. Qed.

Lemma lower_upper_char (c : ascii) : lower_char (upper_char c) = lower_char c.
Proof. destruct c as [[] [] [] [] [] [] [] []]; reflexivity. Qed.

Lemma upper_char_idem (c : ascii) : upper_char (upper_char c) = upper_char c.
Proof. destruct c as [[] [] [] [] [] [] [] []]; reflexivity. Qed.

Lemma lower_char_idem (c : ascii) : lower_char (lower_char c) = lower_char c.
Proof. destruct c as [[] [] [] [] [] [] [] []]; reflexivity. Qed.

(** Two characters fold to the same lower-case letter exactly when they
    fold to the same upper-case letter. *)
Lemma fold_char_agree (a b : ascii) :
  lower_char a = lower_char b <-> upper_char a = upper_char b.
Proof.
  split; intros H.
  - rewrite <- (upper_lower_char a), <- (upper_lower_char b). now rewrite H.
  - rewrite <- (lower_upper_char a), <- (lower_upper_char b). now rewrite H.
Qed.

Lemma upper_idem (s : string) : upper (upper s) = upper s.
Proof.
  induction s as [|c s IH]; simpl; [reflexivity|].
  now rewrite upper_char_idem, IH.
Qed.

Lemma eq_nocase_lower (s t : string) :
  eq_nocase s t = true <-> lower s = lower t.
Proof.
  revert t. induction s as [|a s IH]; intros [|b t]; simpl;
    try (split; [discriminate | intros H; inversion H]); [tauto|].
  rewrite andb_true_iff, Ascii.eqb_eq, IH. split.
  - intros [-> ->]. reflexivity.
  - intros H. inversion H. auto.
Qed.

Lemma eq_nocase_upper (s t : string) :
  eq_nocase s t = true <-> upper s = upper t.
Proof.
  revert t. induction s as [|a s IH]; intros [|b t]; simpl;
    try (split; [discriminate | intros H; inversion H]); [tauto|].
  rewrite andb_true_iff, Ascii.eqb_eq, IH, fold_char_agree. split.
  - intros [-> ->]. reflexivity.
  - intros H. inversion H. auto.
Qed.

(** [s.lower() == t] for a lower-case literal [t] is the case-insensitive
    comparison of [s] with [t]. *)
Lemma lower_eqb_nocase (s t : string) :
  lower t = t -> String.eqb (lower s) t = eq_nocase s t.
Proof.
  intros Ht. apply eq_true_iff_eq.
  rewrite String.eqb_eq, eq_nocase_lower, Ht. reflexivity.
Qed.

Lemma upper_eqb_nocase (s t : string) :
  upper t = t -> String.eqb (upper s) t = eq_nocase s t.
Proof.
  intros Ht. apply eq_true_iff_eq.
  rewrite String.eqb_eq, eq_nocase_upper, Ht. reflexivity.
Qed.

Lemma truthy_nonempty (s : string) : s <> "" -> truthy s = true.
Proof.
  intros H. unfold truthy. destruct (String.eqb_spec s ""); [contradiction|reflexivity].
Qed.

End StringFacts.

(** ** Resolution of the configuration *)

Lemma str_or_explicit (v alt : string) : v <> "" -> str_or (Some v) alt = v.
Proof. intros H. unfold str_or. now rewrite truthy_nonempty. Qed.

Lemma int_or_explicit (n : Z) (alt : outcome Z) : n <> 0 -> int_or (Some n) alt = Ok n.
Proof.
  intros H. unfold int_or. destruct (Z.eqb_spec n 0); [contradiction|reflexivity].
Qed.

Lemma environ_get_set (w : World) (k dflt e : string) :
  environ w !! k = Some e -> environ_get w k dflt = e.
Proof. intros H. unfold environ_get. now rewrite H. Qed.

Lemma environ_get_unset (w : World) (k dflt : string) :
  environ w !! k = None -> environ_get w k dflt = dflt.
Proof. intros H. unfold environ_get. now rewrite H. Qed.

Lemma environ_bool_set (w : World) (k e : string) (dflt : bool) :
  environ w !! k = Some e -> environ_bool w k dflt = PyStr.eq_nocase e "true".
Proof.
  intros H. unfold environ_bool. rewrite (environ_get_set _ _ _ _ H).
  now apply lower_eqb_nocase.
Qed.

Lemma environ_bool_unset (w : World) (k : string) (dflt : bool) :
  environ w !! k = None -> environ_bool w k dflt = dflt.
Proof.
  intros H. unfold environ_bool. rewrite (environ_get_unset _ _ _ H).
  now destruct dflt.
Qed.

Lemma environ_int_set (w : World) (k e : string) (dflt : Z) :
  environ w !! k = Some e -> environ_int w k dflt = parse_int e.
Proof. intros H. unfold environ_int. now rewrite H. Qed.

Lemma environ_int_unset (w : World) (k : string) (dflt : Z) :
  environ w !! k = None -> environ_int w k dflt = Ok dflt.
Proof. intros H. unfold environ_int. now rewrite H. Qed.

(** ** The logging calls *)

#[local] Arguments Formatter : simpl never.

Lemma Formatter_BASIC_FORMAT : Formatter BASIC_FORMAT = Ok BASIC_FORMAT.
Proof. vm_compute. reflexivity. Qed.

Lemma callHandlers_loop_spec (hs : list Handler) (r : LogRecord) (st : State) :
  exists r',
    callHandlers_loop hs r st =
      (Ok r', mkState (is_configured st) (root_level st) (root_handlers st)
                (closed st) (handled st) (emitted st ++ deliver hs r) (next_id st)).
Proof.
  revert r st. induction hs as [|h t IH]; intros r st; simpl.
  - exists r. unfold ret. rewrite app_nil_r. now destruct st.
  - destruct (levelno r >=? hlevel h); [|apply IH].
    unfold bind, Handler_handle.
    destruct (Filterer_filter (hfilters h) r) as [r1 rv] eqn:Hf.
    destruct rv; unfold bind, modify, ret; simpl.
    + destruct (IH r1 (add_emitted (ToHandler (hid h)) r1 st)) as [r' Hr'].
      exists r'. rewrite Hr'. simpl. now rewrite <- app_assoc.
    + destruct (IH r1 st) as [r' Hr']. exists r'. now rewrite Hr'.
Qed.

Lemma root_log_attached (lvl : Z) (m : message) (exc : option exn) (st : State) :
  root_handlers st <> [] ->
  root_log lvl m exc st =
    (Ok tt,
     if isEnabledFor lvl st then
       mkState (is_configured st) (root_level st) (root_handlers st) (closed st)
         (handled st ++ [mkRecord lvl m exc ∅])
         (emitted st ++ deliver (root_handlers st) (mkRecord lvl m exc ∅))
         (next_id st)
     else st).
Proof.
  intros Hne. unfold root_log, bind, gets.
  destruct (isEnabledFor lvl st); [|reflexivity].
  unfold modify, callHandlers, bind, gets. simpl.
  destruct (callHandlers_loop_spec (root_handlers st) (mkRecord lvl m exc ∅)
              (add_handled (mkRecord lvl m exc ∅) st)) as [r' Hr'].
  simpl in Hr'. rewrite Hr'.
  destruct (root_handlers st) as [|h t]; [contradiction|]. reflexivity.
Qed.

Lemma logging_log_attached (lvl : Z) (m : message) (exc : option exn) (st : State) :
  root_handlers st <> [] ->
  logging_log lvl m exc st =
    (Ok tt,
     if isEnabledFor lvl st then
       mkState (is_configured st) (root_level st) (root_handlers st) (closed st)
         (handled st ++ [mkRecord lvl m exc ∅])
         (emitted st ++ deliver (root_handlers st) (mkRecord lvl m exc ∅))
         (next_id st)
     else st).
Proof.
  intros Hne. unfold logging_log, bind, gets.
  destruct (root_handlers st) as [|h t] eqn:Hhs; [contradiction|].
  simpl. unfold ret. rewrite root_log_attached by (rewrite Hhs; discriminate).
  now rewrite Hhs.
Qed.

Lemma logging_log_bare (lvl : Z) (m : message) (exc : option exn) (st : State) :
  root_handlers st = [] ->
  logging_log lvl m exc st =
    (Ok tt,
     mkState (is_configured st) (root_level st) [basic_handler (next_id st)]
       (closed st)
       (handled st ++ (if isEnabledFor lvl st then [mkRecord lvl m exc ∅] else []))
       (emitted st ++
          (if isEnabledFor lvl st
           then deliver [basic_handler (next_id st)] (mkRecord lvl m exc ∅)
           else []))
       (S (next_id st))).
Proof.
  intros Hhs. unfold logging_log, bind, gets. rewrite Hhs.
  cbn [length Nat.eqb]. unfold basicConfig, bind, gets. rewrite Hhs.
  cbn [length Nat.eqb]. unfold StreamHandler, bind, fresh, ret, lift.
  rewrite Formatter_BASIC_FORMAT.
  unfold addHandler, modify. cbn [bump_next_id root_handlers].
  rewrite Hhs. cbn [attached existsb app].
  rewrite root_log_attached by (simpl; discriminate).
  unfold isEnabledFor. simpl.
  destruct (manager_disable >=? lvl); [now rewrite !app_nil_r|].
  destruct (lvl >=? root_level st); [reflexivity|].
  now rewrite !app_nil_r.
Qed.

(** ** The sinks, the flag and the closing record (lines 98-135) *)

#[local] Arguments logging_log : simpl never.
#[local] Arguments checkLevel : simpl never.
#[local] Arguments summary : simpl never.
#[local] Arguments deliver : simpl never.

Lemma attach_and_mark_spec (a : Args.t) (w : World) (cfg : Config)
    (f : string) (lvl : pyval) (n : Z) (st : State) :
  checkLevel lvl = Ok n ->
  root_handlers st = [] ->
  root_level st = n ->
  attach_and_mark a w cfg f lvl st =
    (Ok tt,
     mkState true n (final_handlers a w cfg n f (next_id st)) (closed st)
       (handled st ++ error_records w cfg n ++ info_records a cfg n)
       (emitted st ++
          flat_map (deliver (final_handlers a w cfg n f (next_id st)))
            (error_records w cfg n ++ info_records a cfg n))
       (length (final_handlers a w cfg n f (next_id st)) + S (next_id st))).
Proof.
  intros Hlvl Hhs Hn. destruct st as [c rl hs cl hd em k]. simpl in *. subst hs rl.
  unfold attach_and_mark, console_block, file_block, final_handlers,
    own_handlers, error_records, info_records, fs_failure, logging_info, logging_error.
  generalize (summary (Args.service_name a) cfg). intros sm.
  destruct cfg as [ls fs con fil dir fname mb bc]. simpl.
  destruct con, fil;
  destruct (mkdir w (Join ProjectRoot dir)) as [e1|] eqn:Hmk;
  destruct (open_file w (Join (Join ProjectRoot dir) fname)) as [e2|] eqn:Hop.
  all: unfold bind, fresh, StreamHandler, ret, Handler_setLevel, lift, bind, ret,
         try_except, Path_mkdir, RotatingFileHandler, lift, bind, fresh, ret,
         Handler_setLevel, bind, lift, ret, addHandler, modify;
       simpl; rewrite ?Hlvl, ?Hmk, ?Hop; simpl; rewrite ?Hlvl; simpl.
  all: unfold Handler_addFilter, Handler_setFormatter, set_root_handlers,
         bump_next_id; simpl.
  all: rewrite ?(proj2 (Nat.eqb_neq k (S k))) by lia; simpl.
  all: unfold ERROR, INFO, NOTSET;
       destruct (40 >=? n) eqn:E40; destruct (20 >=? n) eqn:E20.
  all: repeat (first
         [ rewrite logging_log_attached by (simpl; discriminate)
         | rewrite logging_log_bare by reflexivity ];
         unfold set_is_configured, isEnabledFor, manager_disable; simpl;
         rewrite ?E40, ?E20).
  all: simpl; rewrite ?app_nil_r, <- ?app_assoc; try reflexivity.
Qed.

(** ** The reset of the handler list (lines 89-91) *)

Lemma handler_ids_cons (h : Handler) (t : list Handler) (c : gset nat) :
  handler_ids t ∪ ({[hid h]} ∪ c) = handler_ids (h :: t) ∪ c.
Proof.
  unfold handler_ids. simpl.
  rewrite (assoc_L (∪)). f_equal. apply (comm_L (∪)).
Qed.

Lemma clear_handlers_spec (hs : list Handler) (st : State) :
  root_handlers st = hs ->
  clear_handlers hs st =
    (Ok tt, mkState (is_configured st) (root_level st) []
              (handler_ids hs ∪ closed st) (handled st) (emitted st) (next_id st)).
Proof.
  revert st. induction hs as [|h t IH]; intros st Hst.
  - simpl. unfold ret. f_equal. destruct st; simpl in *. subst.
    f_equal. unfold handler_ids. simpl. now rewrite (left_id_L ∅ (∪)).
  - simpl. unfold bind, removeHandler, Handler_close, modify. rewrite Hst.
    simpl. rewrite Nat.eqb_refl. simpl.
    rewrite IH by reflexivity. simpl. f_equal. f_equal.
    apply handler_ids_cons.
Qed.

(** ** [configure] and [setup_logging] as a whole *)

(** The first steps of [configure], up to the construction of the
    formatter. *)
Ltac after_resolve Hres :=
  unfold configure, bind, lift; rewrite Hres.
Ltac after_setLevel Hlvl :=
  unfold root_setLevel, bind, lift; rewrite Hlvl.
Ltac after_reset :=
  unfold modify, gets; cbn [set_root_level root_handlers];
  rewrite clear_handlers_spec by reflexivity.

Lemma configure_ok (a : Args.t) (w : World) (st : State) (cfg : Config)
    (n : Z) (f : string) :
  resolve a w = Ok cfg ->
  checkLevel (numeric_level (log_level_str cfg)) = Ok n ->
  Formatter (log_format_str cfg) = Ok f ->
  configure a w st = (Ok tt, configured_state a w cfg n f st).
Proof.
  intros Hres Hlvl Hfmt.
  after_resolve Hres. after_setLevel Hlvl. after_reset. rewrite Hfmt.
  rewrite (attach_and_mark_spec a w cfg f _ n) by (assumption || reflexivity).
  reflexivity.
Qed.

(** A run either returns, leaving [configured_state], or raises with the
    flag untouched; the three places that raise are the parsing of the
    numeric fields, the level check and the construction of the formatter. *)
Lemma configure_cases (a : Args.t) (w : World) (st : State) :
  (exists cfg n f,
     resolve a w = Ok cfg /\
     checkLevel (numeric_level (log_level_str cfg)) = Ok n /\
     Formatter (log_format_str cfg) = Ok f /\
     configure a w st = (Ok tt, configured_state a w cfg n f st)) \/
  (exists e st', configure a w st = (Raise e, st') /\
     is_configured st' = is_configured st).
Proof.
  destruct (resolve a w) as [cfg|e] eqn:Hres.
  - destruct (checkLevel (numeric_level (log_level_str cfg))) as [n|e] eqn:Hlvl.
    + destruct (Formatter (log_format_str cfg)) as [f|e] eqn:Hfmt.
      * left. exists cfg, n, f. repeat split; try assumption.
        now apply configure_ok.
      * right. after_resolve Hres. after_setLevel Hlvl. after_reset.
        rewrite Hfmt. eexists _, _. split; reflexivity.
    + right. after_resolve Hres. after_setLevel Hlvl.
      eexists _, _. split; reflexivity.
  - right. after_resolve Hres. eexists _, _. split; reflexivity.
Qed.

(** The fields of a resolved configuration. *)
Lemma resolve_fields (a : Args.t) (w : World) (cfg : Config) :
  resolve a w = Ok cfg ->
  log_level_str cfg = resolve_level a w /\
  log_format_str cfg = resolve_format a w /\
  should_log_to_console cfg = resolve_console a w /\
  should_log_to_file cfg = resolve_file a w /\
  log_directory cfg = resolve_dir a w /\
  log_file_name cfg = resolve_filename a w /\
  resolve_max_bytes a w = Ok (max_log_bytes cfg) /\
  resolve_backup_count a w = Ok (backup_log_count cfg).
Proof.
  unfold resolve. intros H.
  destruct (resolve_max_bytes a w); [|discriminate].
  destruct (resolve_backup_count a w); [|discriminate].
  inversion H. simpl. repeat split.
Qed.

Lemma setup_configured (a : Args.t) (w : World) (st : State) :
  is_configured st = true -> setup_logging a w st = (Ok tt, st).
Proof. intros H. unfold setup_logging, bind, gets. now rewrite H. Qed.

Lemma setup_fresh (a : Args.t) (w : World) (st : State) :
  is_configured st = false -> setup_logging a w st = configure a w st.
Proof. intros H. unfold setup_logging, bind, gets. now rewrite H. Qed.

(** Inversion of a first call that returns. *)
Lemma setup_fresh_ok (a : Args.t) (w : World) (st st1 : State) :
  is_configured st = false ->
  setup_logging a w st = (Ok tt, st1) ->
  exists cfg n f,
    resolve a w = Ok cfg /\
    checkLevel (numeric_level (log_level_str cfg)) = Ok n /\
    Formatter (log_format_str cfg) = Ok f /\
    st1 = configured_state a w cfg n f st.
Proof.
  intros Hc Hrun. rewrite setup_fresh in Hrun by assumption.
  destruct (configure_cases a w st) as [(cfg & n & f & H1 & H2 & H3 & H4)|(e & st' & H & _)].
  - exists cfg, n, f. repeat split; try assumption. congruence.
  - congruence.
Qed.

Lemma run_calls_configured (calls : list (Args.t * World)) (st : State) :
  is_configured st = true ->
  run_calls calls st = (map (fun _ => Ok tt) calls, st).
Proof.
  intros H. induction calls as [|[a w] rest IH]; simpl; [reflexivity|].
  rewrite setup_configured by assumption. now rewrite IH.
Qed.

Lemma final_handlers_cases (a : Args.t) (w : World) (cfg : Config) (n : Z)
    (f : string) (k : nat) :
  let c := console_handler_of a n f k in
  final_handlers a w cfg n f k = [c; file_handler_of a cfg n f k (S (S k))] \/
  final_handlers a w cfg n f k = [c] \/
  final_handlers a w cfg n f k = [file_handler_of a cfg n f k (S k)] \/
  final_handlers a w cfg n f k = [basic_handler (S k)].
Proof.
  unfold final_handlers, own_handlers.
  destruct (should_log_to_console cfg), (should_log_to_file cfg),
    (fs_failure w cfg); simpl; auto.
Qed.

Lemma final_handlers_sinks (a : Args.t) (w : World) (cfg : Config) (n : Z)
    (f : string) (k : nat) :
  one_set_of_sinks (final_handlers a w cfg n f k).
Proof.
  destruct (final_handlers_cases a w cfg n f k) as [H|[H|[H|H]]];
    rewrite H; unfold one_set_of_sinks; simpl; lia.
Qed.

Lemma final_handlers_fresh (a : Args.t) (w : World) (cfg : Config) (n : Z)
    (f : string) (k : nat) (h : Handler) :
  In h (final_handlers a w cfg n f k) -> (k < hid h)%nat.
Proof.
  destruct (final_handlers_cases a w cfg n f k) as [H|[H|[H|H]]];
    rewrite H; simpl; intros Hin; intuition (subst; simpl; lia).
Qed.

(** The flag is only ever set, and with it the sinks are one set. *)
Lemma setup_preserves_sinks (a : Args.t) (w : World) (st : State) :
  (is_configured st = true -> one_set_of_sinks (root_handlers st)) ->
  let st' := snd (setup_logging a w st) in
  is_configured st' = true -> one_set_of_sinks (root_handlers st').
Proof.
  intros Inv. destruct (is_configured st) eqn:Hc.
  - rewrite setup_configured by assumption. simpl. intros _. auto.
  - rewrite setup_fresh by assumption.
    destruct (configure_cases a w st) as [(cfg & n & f & _ & _ & _ & H)|(e & st' & H & Hflag)];
      rewrite H; simpl.
    + intros _. apply final_handlers_sinks.
    + rewrite Hflag, Hc. discriminate.
Qed.

Lemma run_calls_sinks (calls : list (Args.t * World)) (st : State) :
  (is_configured st = true -> one_set_of_sinks (root_handlers st)) ->
  let st' := snd (run_calls calls st) in
  is_configured st' = true -> one_set_of_sinks (root_handlers st').
Proof.
  revert st. induction calls as [|[a w] rest IH]; intros st Inv; simpl; [exact Inv|].
  pose proof (setup_preserves_sinks a w st Inv) as Hstep.
  destruct (setup_logging a w st) as [o st1]. simpl in Hstep.
  specialize (IH st1 Hstep).
  destruct (run_calls rest st1) as [os st2]. exact IH.
Qed.

(** * The claims *)

(** ** C1 *)

(** C1 as stated fails: an explicit empty level string is non-null but
    false, so [LOG_LEVEL] decides; likewise an explicit [max_bytes] of 0
    gives way to [LOG_MAX_BYTES]. *)
Lemma explicit_falsy_argument_gives_way :
  let a := Args.mk "svc" (Some "") None None None None None (Some 0) None in
  let w := world_ok {["LOG_LEVEL" := "DEBUG"; "LOG_MAX_BYTES" := "2048"]} in
  (Args.level a = Some "" /\ resolve_level a w = "DEBUG" /\
   resolve_level a w <> "") /\
  (Args.max_bytes a = Some 0 /\ resolve_max_bytes a w = Ok 2048 /\
   resolve_max_bytes a w <> Ok 0).
Proof. vm_compute. repeat split; (reflexivity || discriminate). Qed.

(** C1 (amended). For each field, an explicit argument that is true-valued
    (a non-empty string, a non-zero integer, either boolean) is the
    resolved value whatever the environment holds; with a null argument
    and the environment variable set, the variable's text decides (for a
    numeric field through [int], for a boolean through the comparison with
    "true") whatever the built-in default is. *)
Theorem precedence_per_field (a : Args.t) (w : World) :
  (forall v, Args.level a = Some v -> v <> "" -> resolve_level a w = v) /\
  (forall v, Args.log_format a = Some v -> v <> "" -> resolve_format a w = v) /\
  (forall b, Args.log_to_console a = Some b -> resolve_console a w = b) /\
  (forall b, Args.log_to_file a = Some b -> resolve_file a w = b) /\
  (forall v, Args.log_dir a = Some v -> v <> "" -> resolve_dir a w = v) /\
  (forall v, Args.log_filename a = Some v -> v <> "" -> resolve_filename a w = v) /\
  (forall n, Args.max_bytes a = Some n -> n <> 0 -> resolve_max_bytes a w = Ok n) /\
  (forall n, Args.backup_count a = Some n -> n <> 0 ->
     resolve_backup_count a w = Ok n) /\
  (forall e, Args.level a = None -> environ w !! "LOG_LEVEL" = Some e ->
     resolve_level a w = e) /\
  (forall e, Args.log_format a = None -> environ w !! "LOG_FORMAT" = Some e ->
     resolve_format a w = e) /\
  (forall e, Args.log_to_console a = None ->
     environ w !! "LOG_TO_CONSOLE" = Some e ->
     resolve_console a w = PyStr.eq_nocase e "true") /\
  (forall e, Args.log_to_file a = None -> environ w !! "LOG_TO_FILE" = Some e ->
     resolve_file a w = PyStr.eq_nocase e "true") /\
  (forall e, Args.log_dir a = None -> environ w !! "LOG_DIR" = Some e ->
     resolve_dir a w = e) /\
  (forall e, Args.log_filename a = None -> environ w !! "LOG_FILENAME" = Some e ->
     resolve_filename a w = e) /\
  (forall e, Args.max_bytes a = None -> environ w !! "LOG_MAX_BYTES" = Some e ->
     resolve_max_bytes a w = parse_int e) /\
  (forall e, Args.backup_count a = None ->
     environ w !! "LOG_BACKUP_COUNT" = Some e ->
     resolve_backup_count a w = parse_int e).
Proof.
  unfold resolve_level, resolve_format, resolve_console, resolve_file,
    resolve_dir, resolve_filename, resolve_max_bytes, resolve_backup_count.
  repeat split.
  1-2,5-6: intros v -> Hv; now apply str_or_explicit.
  1-2: now intros b ->.
  1-2: intros n -> Hn; now apply int_or_explicit.
  1-2,5-6: intros e -> He; simpl; now apply environ_get_set.
  1-2: intros e -> He; now apply environ_bool_set.
  1-2: intros e -> He; simpl; now apply environ_int_set.
Qed.

Lemma precedence_per_field_witness :
  let a := Args.mk "svc" (Some "debug") None (Some false) None None None
             (Some 4096) None in
  let w := world_ok {["LOG_LEVEL" := "ERROR"; "LOG_TO_FILE" := "true";
                      "LOG_TO_CONSOLE" := "TRUE"; "LOG_MAX_BYTES" := "1";
                      "LOG_BACKUP_COUNT" := "9"; "LOG_DIR" := "var"]} in
  resolve_level a w = "debug" /\ resolve_file a w = false /\
  resolve_max_bytes a w = Ok 4096 /\ resolve_console a w = true /\
  resolve_backup_count a w = Ok 9 /\ resolve_dir a w = "var".
Proof.
  intros a w.
  destruct (precedence_per_field a w)
    as (H1 & _ & _ & H4 & _ & _ & H7 & _ & _ & _ & H11 & _ & H13 & _ & _ & H16).
  split; [apply H1; [reflexivity | discriminate]|].
  split; [apply H4; reflexivity|].
  split; [apply H7; [reflexivity | discriminate]|].
  split; [rewrite (H11 "TRUE"); reflexivity|].
  split; [rewrite (H16 "9"); reflexivity|].
  apply H13; reflexivity.
Defined.

(** ** C2 *)

(** C2 as stated fails: with no argument given and [LOG_MAX_BYTES=abc],
    the call raises [ValueError] out of [int] instead of falling back to
    10485760; the same holds for [LOG_BACKUP_COUNT]. *)
Lemma malformed_integer_text_raises :
  PyInt.int "abc" = None /\
  setup_logging Args.defaults (world_ok {["LOG_MAX_BYTES" := "abc"]}) initial_state
    = (Raise (ValueError_int "abc"), initial_state) /\
  resolve_max_bytes Args.defaults (world_ok {["LOG_MAX_BYTES" := "abc"]})
    <> Ok DEFAULT_LOG_MAX_BYTES /\
  setup_logging Args.defaults (world_ok {["LOG_BACKUP_COUNT" := "five"]}) initial_state
    = (Raise (ValueError_int "five"), initial_state).
Proof. vm_compute. repeat split; try reflexivity. discriminate. Qed.

(** C2 (amended). For each of the two numeric fields on its own: with a
    null argument the field is the built-in default (10485760, 5) when
    its variable is unset and the integer [int] reads from the variable's
    text when that text is an integer literal; when the text is malformed
    the resolution of the field raises [ValueError], and a first call
    raises it to the caller and leaves the process state as it was, the
    flag included.  (When both fields raise, the error of [max_bytes],
    line 73, is the one raised.) *)
Theorem numeric_environment (a : Args.t) (w : World) (st : State) :
  DEFAULT_LOG_MAX_BYTES = 10485760 /\ DEFAULT_LOG_BACKUP_COUNT = 5 /\
  (Args.max_bytes a = None -> environ w !! "LOG_MAX_BYTES" = None ->
     resolve_max_bytes a w = Ok DEFAULT_LOG_MAX_BYTES) /\
  (Args.backup_count a = None -> environ w !! "LOG_BACKUP_COUNT" = None ->
     resolve_backup_count a w = Ok DEFAULT_LOG_BACKUP_COUNT) /\
  (forall e n, Args.max_bytes a = None ->
     environ w !! "LOG_MAX_BYTES" = Some e -> PyInt.int e = Some n ->
     resolve_max_bytes a w = Ok n) /\
  (forall e n, Args.backup_count a = None ->
     environ w !! "LOG_BACKUP_COUNT" = Some e -> PyInt.int e = Some n ->
     resolve_backup_count a w = Ok n) /\
  (forall e, Args.max_bytes a = None ->
     environ w !! "LOG_MAX_BYTES" = Some e -> PyInt.int e = None ->
     resolve_max_bytes a w = Raise (ValueError_int e) /\
     (is_configured st = false ->
      setup_logging a w st = (Raise (ValueError_int e), st))) /\
  (forall e, Args.backup_count a = None ->
     environ w !! "LOG_BACKUP_COUNT" = Some e -> PyInt.int e = None ->
     resolve_backup_count a w = Raise (ValueError_int e) /\
     (is_configured st = false ->
      (is_ok (resolve_max_bytes a w) = true ->
       setup_logging a w st = (Raise (ValueError_int e), st)) /\
      exists e', setup_logging a w st = (Raise (ValueError_int e'), st))).
Proof.
  split; [reflexivity|]. split; [reflexivity|].
  split; [|split; [|split; [|split; [|split]]]].
  - intros Hmb He. unfold resolve_max_bytes. rewrite Hmb. simpl.
    now apply environ_int_unset.
  - intros Hbc He. unfold resolve_backup_count. rewrite Hbc. simpl.
    now apply environ_int_unset.
  - intros e n Hmb He Hn. unfold resolve_max_bytes. rewrite Hmb. simpl.
    rewrite (environ_int_set _ _ _ _ He). unfold parse_int. now rewrite Hn.
  - intros e n Hbc He Hn. unfold resolve_backup_count. rewrite Hbc. simpl.
    rewrite (environ_int_set _ _ _ _ He). unfold parse_int. now rewrite Hn.
  - intros e Hmb He Hn.
    assert (Hr : resolve_max_bytes a w = Raise (ValueError_int e)).
    { unfold resolve_max_bytes. rewrite Hmb. simpl.
      rewrite (environ_int_set _ _ _ _ He). unfold parse_int. now rewrite Hn. }
    split; [exact Hr|]. intros Hc. rewrite setup_fresh by assumption.
    unfold configure, bind, lift, resolve. now rewrite Hr.
  - intros e Hbc He Hn.
    assert (Hr : resolve_backup_count a w = Raise (ValueError_int e)).
    { unfold resolve_backup_count. rewrite Hbc. simpl.
      rewrite (environ_int_set _ _ _ _ He). unfold parse_int. now rewrite Hn. }
    split; [exact Hr|]. intros Hc. rewrite setup_fresh by assumption.
    unfold configure, bind, lift, resolve. rewrite Hr.
    destruct (resolve_max_bytes a w) as [mb|e1] eqn:Hmb1.
    + split; [reflexivity | eauto].
    + split; [discriminate|].
      assert (Hform : exists txt, e1 = ValueError_int txt).
      { unfold resolve_max_bytes, int_or in Hmb1.
        destruct (Args.max_bytes a) as [k|].
        - destruct (k =? 0); [|discriminate].
          unfold environ_int, parse_int in Hmb1.
          destruct (environ w !! "LOG_MAX_BYTES") as [t|]; [|discriminate].
          destruct (PyInt.int t); [discriminate|]. inversion Hmb1. eauto.
        - unfold environ_int, parse_int in Hmb1.
          destruct (environ w !! "LOG_MAX_BYTES") as [t|]; [|discriminate].
          destruct (PyInt.int t); [discriminate|]. inversion Hmb1. eauto. }
      destruct Hform as [txt ->]. eauto.
Qed.

Lemma numeric_environment_witness :
  let w := world_ok {["LOG_MAX_BYTES" := " 1_000 "; "LOG_BACKUP_COUNT" := "five"]} in
  let a := Args.mk "svc" None None None None None None (Some 4096) None in
  resolve_max_bytes Args.defaults w = Ok 1000 /\
  setup_logging Args.defaults w initial_state
    = (Raise (ValueError_int "five"), initial_state) /\
  setup_logging a w initial_state
    = (Raise (ValueError_int "five"), initial_state).
Proof.
  intros w a.
  destruct (numeric_environment Args.defaults w initial_state)
    as (_ & _ & _ & _ & H5 & _ & _ & H8).
  destruct (numeric_environment a w initial_state)
    as (_ & _ & _ & _ & _ & _ & _ & H8').
  split; [apply (H5 " 1_000 "); reflexivity|]. split.
  - destruct (H8 "five" eq_refl eq_refl eq_refl) as [_ H].
    destruct (H eq_refl) as [H' _]. apply H'. reflexivity.
  - destruct (H8' "five" eq_refl eq_refl eq_refl) as [_ H].
    destruct (H eq_refl) as [H' _]. apply H'. reflexivity.
Defined.

(** ** C3 *)

(** C3. In a sequence of calls, once the first call has set the flag (as
    every first call that returns does), each later call, whatever its
    arguments and environment, returns at once and leaves the whole
    process state as it is: no handler attached, detached or closed, the
    root level unchanged, no record created or emitted, the flag still
    true. *)
Theorem later_calls_are_noops (a : Args.t) (w : World) (st : State)
    (calls : list (Args.t * World)) :
  let o := fst (setup_logging a w st) in
  let st1 := snd (setup_logging a w st) in
  (o = Ok tt -> is_configured st1 = true) /\
  (is_configured st1 = true ->
     (forall a' w', setup_logging a' w' st1 = (Ok tt, st1)) /\
     run_calls ((a, w) :: calls) st = (o :: map (fun _ => Ok tt) calls, st1)).
Proof.
  simpl. split.
  - destruct (setup_logging a w st) as [o st1] eqn:Hrun. simpl. intros ->.
    destruct (is_configured st) eqn:Hc.
    + rewrite setup_configured in Hrun by assumption. congruence.
    + destruct (setup_fresh_ok a w st st1 Hc Hrun) as (cfg & n & f & _ & _ & _ & ->).
      reflexivity.
  - intros Hflag. split.
    + intros a' w'. now apply setup_configured.
    + destruct (setup_logging a w st) as [o st1]. simpl in *.
      now rewrite run_calls_configured.
Qed.

Lemma later_calls_are_noops_witness :
  let st1 := snd (setup_logging Args.defaults (world_ok ∅) initial_state) in
  let again := Args.mk "other" (Some "DEBUG") (Some false) (Some false) None None
                 None None None in
  run_calls [(Args.defaults, world_ok ∅); (again, world_mkdir_fails ∅);
             (Args.defaults, world_ok ∅)] initial_state
    = ([Ok tt; Ok tt; Ok tt], st1).
Proof.
  intros st1 again.
  destruct (later_calls_are_noops Args.defaults (world_ok ∅) initial_state
              [(again, world_mkdir_fails ∅); (Args.defaults, world_ok ∅)])
    as (Hflag & Hnoop).
  apply Hnoop. apply Hflag. vm_compute. reflexivity.
Defined.

(** ** C4 *)

(** C4 as stated fails: with a null argument and the variable absent the
    built-in default applies, and it is "enabled". *)
Lemma absent_boolean_variable_enables :
  Args.log_to_console Args.defaults = None /\
  Args.log_to_file Args.defaults = None /\
  environ (world_ok ∅) !! "LOG_TO_CONSOLE" = None /\
  environ (world_ok ∅) !! "LOG_TO_FILE" = None /\
  resolve_console Args.defaults (world_ok ∅) = true /\
  resolve_file Args.defaults (world_ok ∅) = true.
Proof. vm_compute. repeat split; reflexivity. Qed.

Lemma lower_char_letter (c l : ascii) :
  PyStr.is_lower l = true -> PyStr.lower_char c = l ->
  c = l \/ c = PyStr.upper_char l.
Proof.
  intros Hl <-. revert Hl.
  destruct c as [[] [] [] [] [] [] [] []]; intros Hl;
    first [discriminate Hl | left; reflexivity | right; reflexivity].
Qed.

Lemma eq_nocase_true_spellings (e : string) :
  PyStr.eq_nocase e "true" = true <-> In e spellings_of_true.
Proof.
  split.
  - intros H.
    destruct e as [|c1 [|c2 [|c3 [|c4 [|c5 e]]]]]; simpl in H;
      rewrite ?andb_true_iff in H; try discriminate H;
      try (exfalso; intuition discriminate).
    destruct H as (H1 & H2 & H3 & H4 & _).
    apply Ascii.eqb_eq, lower_char_letter in H1, H2, H3, H4; try reflexivity.
    destruct H1 as [-> | ->], H2 as [-> | ->], H3 as [-> | ->], H4 as [-> | ->];
      unfold spellings_of_true;
      repeat first [left; reflexivity | right].
  - intros H. repeat (destruct H as [<- | H]; [reflexivity|]). destruct H.
Qed.

(** C4 (amended). With a null argument, a set environment variable enables
    the output exactly when its text is "true" in some capitalisation and
    disables it for any other text; when the variable is absent the
    built-in default, enabled, applies.  A non-null argument, [False]
    included, is the resolved value whatever the environment holds. *)
Theorem boolean_fields (a : Args.t) (w : World) :
  (forall b, Args.log_to_console a = Some b -> resolve_console a w = b) /\
  (forall b, Args.log_to_file a = Some b -> resolve_file a w = b) /\
  (forall e, Args.log_to_console a = None ->
     environ w !! "LOG_TO_CONSOLE" = Some e ->
     resolve_console a w = PyStr.eq_nocase e "true" /\
     (resolve_console a w = true <-> In e spellings_of_true)) /\
  (forall e, Args.log_to_file a = None -> environ w !! "LOG_TO_FILE" = Some e ->
     resolve_file a w = PyStr.eq_nocase e "true" /\
     (resolve_file a w = true <-> In e spellings_of_true)) /\
  (Args.log_to_console a = None -> environ w !! "LOG_TO_CONSOLE" = None ->
     resolve_console a w = true) /\
  (Args.log_to_file a = None -> environ w !! "LOG_TO_FILE" = None ->
     resolve_file a w = true).
Proof.
  unfold resolve_console, resolve_file.
  split; [now intros b ->|]. split; [now intros b ->|].
  split; [intros e -> He; rewrite (environ_bool_set _ _ _ _ He);
          split; [reflexivity | apply eq_nocase_true_spellings]|].
  split; [intros e -> He; rewrite (environ_bool_set _ _ _ _ He);
          split; [reflexivity | apply eq_nocase_true_spellings]|].
  split; intros -> He; now apply environ_bool_unset.
Qed.

Lemma boolean_fields_witness :
  let w := world_ok {["LOG_TO_CONSOLE" := "True"; "LOG_TO_FILE" := "yes"]} in
  let a := Args.mk "svc" None (Some false) None None None None None None in
  resolve_console Args.defaults w = true /\
  resolve_file Args.defaults w = false /\
  resolve_console a w = false /\
  resolve_file Args.defaults (world_ok {["LOG_TO_FILE" := ""]}) = false /\
  resolve_file Args.defaults (world_ok {["LOG_TO_FILE" := "1"]}) = false /\
  resolve_console Args.defaults (world_ok {["LOG_TO_FILE" := "1"]}) = true.
Proof.
  intros w a.
  split; [destruct (boolean_fields Args.defaults w) as (_ & _ & H & _);
          destruct (H "True" eq_refl eq_refl) as [-> _]; reflexivity|].
  split; [destruct (boolean_fields Args.defaults w) as (_ & _ & _ & H & _);
          destruct (H "yes" eq_refl eq_refl) as [-> _]; reflexivity|].
  split; [destruct (boolean_fields a w) as (H & _); apply H; reflexivity|].
  split; [destruct (boolean_fields Args.defaults (world_ok {["LOG_TO_FILE" := ""]}))
            as (_ & _ & _ & H & _);
          destruct (H "" eq_refl eq_refl) as [-> _]; reflexivity|].
  split; [destruct (boolean_fields Args.defaults (world_ok {["LOG_TO_FILE" := "1"]}))
            as (_ & _ & _ & H & _);
          destruct (H "1" eq_refl eq_refl) as [-> _]; reflexivity|].
  destruct (boolean_fields Args.defaults (world_ok {["LOG_TO_FILE" := "1"]}))
    as (_ & _ & _ & _ & H & _).
  apply H; reflexivity.
Defined.

(** ** C5 *)

Lemma not_severity_name (s : string) :
  is_severity_name s = false ->
  Forall (fun nm => String.eqb (PyStr.upper s) nm = false) severity_names.
Proof.
  unfold is_severity_name, severity_names. simpl.
  rewrite !orb_false_iff. intros (H1 & H2 & H3 & H4 & H5 & H6 & H7 & H8 & _).
  repeat constructor;
    (rewrite upper_eqb_nocase by reflexivity; assumption).
Qed.

(** Where the mapping does what is intended: a string that names neither
    a severity nor another upper-case constant of the module is ranked as
    INFO. *)
Lemma level_naming_nothing_is_info (s : string) :
  is_severity_name s = false ->
  PyStr.upper s <> "BASIC_FORMAT" ->
  PyStr.upper s <> "_STYLES" ->
  numeric_level s = VInt INFO.
Proof.
  intros Hs Hb Hd. apply not_severity_name in Hs.
  unfold severity_names in Hs.
  repeat match goal with
         | H : Forall _ (_ :: _) |- _ => inversion H; clear H; subst
         end.
  unfold numeric_level, getattr_logging, logging_attr.
  repeat match goal with H : String.eqb _ _ = false |- _ => rewrite H; clear H end.
  apply String.eqb_neq in Hb, Hd. now rewrite Hb, Hd.
Qed.

(** A level string that is no severity name and is accepted by [setLevel]
    has the rank of INFO. *)
Lemma accepted_unrecognised_level (s : string) (n : Z) :
  is_severity_name s = false ->
  checkLevel (numeric_level s) = Ok n ->
  n = INFO.
Proof.
  intros Hs Hn.
  destruct (String.eqb_spec (PyStr.upper s) "BASIC_FORMAT") as [Eb|Eb].
  - apply not_severity_name in Hs. unfold severity_names in Hs.
    repeat match goal with
           | H : Forall _ (_ :: _) |- _ => inversion H; clear H; subst
           end.
    unfold numeric_level, getattr_logging, logging_attr in Hn.
    rewrite Eb in Hn. discriminate Hn.
  - destruct (String.eqb_spec (PyStr.upper s) "_STYLES") as [Ed|Ed].
    + unfold numeric_level, getattr_logging, logging_attr in Hn.
      rewrite Ed in Hn. discriminate Hn.
    + rewrite (level_naming_nothing_is_info s Hs Eb Ed) in Hn.
      now inversion Hn.
Qed.

(** C5. A level string that is no severity name is ranked as INFO when
    its upper-case form names nothing in module [logging], and in every
    first call that returns; the look-up of line 83 is total.  But the
    code looks the upper-cased string up among all names of the module:
    "basic_format" is no severity name, yet the look-up returns the format
    constant, [setLevel] rejects it and the call raises [ValueError];
    "_styles" ends in [TypeError]. *)
Theorem unrecognised_level (s : string) :
  (is_severity_name s = false ->
   PyStr.upper s <> "BASIC_FORMAT" -> PyStr.upper s <> "_STYLES" ->
   checkLevel (numeric_level s) = Ok INFO) /\
  (forall a w st st1,
     is_configured st = false ->
     setup_logging a w st = (Ok tt, st1) ->
     resolve_level a w = s -> is_severity_name s = false ->
     root_level st1 = INFO) /\
  is_severity_name "basic_format" = false /\
  numeric_level "basic_format" = VStr BASIC_FORMAT /\
  setup_logging (Args.mk "svc" (Some "basic_format") None None None None None None None)
    (world_ok ∅) initial_state
    = (Raise (ValueError_level BASIC_FORMAT), initial_state) /\
  is_severity_name "_styles" = false /\
  setup_logging Args.defaults (world_ok {["LOG_LEVEL" := "_styles"]}) initial_state
    = (Raise TypeError_level, initial_state).
Proof.
  split; [|split].
  - intros Hs Hb Hd. now rewrite level_naming_nothing_is_info.
  - intros a w st st1 Hc Hrun Hres Hs.
    destruct (setup_fresh_ok a w st st1 Hc Hrun)
      as (cfg & n & f & Hcfg & Hlvl & _ & ->).
    destruct (resolve_fields a w cfg Hcfg) as (Hl & _).
    rewrite Hl, Hres in Hlvl. simpl.
    now apply (accepted_unrecognised_level s n).
  - vm_compute. repeat split; reflexivity.
Qed.

Lemma unrecognised_level_witness :
  checkLevel (numeric_level "BOGUS") = Ok INFO /\
  root_level
    (snd (setup_logging Args.defaults (world_ok {["LOG_LEVEL" := "BOGUS"]})
            initial_state)) = INFO.
Proof.
  destruct (unrecognised_level "BOGUS") as (H1 & H2 & _).
  split.
  - apply H1; [reflexivity | discriminate | discriminate].
  - apply (H2 Args.defaults (world_ok {["LOG_LEVEL" := "BOGUS"]}) initial_state);
      [reflexivity | vm_compute; reflexivity | reflexivity | reflexivity].
Defined.

(** ** C6 *)

(** C6 as stated fails: at level CRITICAL the root logger drops the
    [logging.error] call, so no error record is created or emitted
    although the directory could not be made. *)
Lemma file_failure_unreported_at_critical :
  let a := Args.mk "svc" (Some "CRITICAL") None None None None None None None in
  let w := world_mkdir_fails ∅ in
  resolve_file a w = true /\
  mkdir w (Join ProjectRoot (resolve_dir a w)) = Some (OSError "File exists") /\
  fst (setup_logging a w initial_state) = Ok tt /\
  handled (snd (setup_logging a w initial_state)) = [] /\
  emitted (snd (setup_logging a w initial_state)) = [].
Proof. vm_compute. repeat split; reflexivity. Qed.

(** C6 (amended). When the construction of the file sink fails (the
    directory cannot be made or the file cannot be opened), the call
    returns normally and no file handler is attached.  An error record
    carrying the failure is created by the root logger and emitted by the
    attached handlers exactly when the resolved level is ERROR or lower.
    A console handler that was enabled is the one attached handler: it has
    emitted that error record, stamped with the service name, and it emits
    every later record of positive level logged on the root at or above
    the resolved level; a record below the resolved level, or of level 0
    or less, is dropped by the root logger. *)
Theorem file_failure_is_contained (a : Args.t) (w : World) (st : State)
    (cfg : Config) (n : Z) (f : string) (e : exn) :
  is_configured st = false ->
  resolve a w = Ok cfg ->
  checkLevel (numeric_level (log_level_str cfg)) = Ok n ->
  Formatter (log_format_str cfg) = Ok f ->
  should_log_to_file cfg = true ->
  fs_failure w cfg = Some e ->
  let err :=
    mkRecord ERROR
      (FileFailure (Join (Join ProjectRoot (log_directory cfg)) (log_file_name cfg)) e)
      (Some e) ∅ in
  exists st1,
    setup_logging a w st = (Ok tt, st1) /\
    handled st1 =
      handled st ++ (if ERROR >=? n then [err] else []) ++ info_records a cfg n /\
    emitted st1 =
      emitted st ++
      flat_map (deliver (root_handlers st1))
        ((if ERROR >=? n then [err] else []) ++ info_records a cfg n) /\
    root_handlers st1 <> [] /\
    List.filter is_file (root_handlers st1) = [] /\
    (should_log_to_console cfg = true ->
     let c := console_handler_of a n f (next_id st) in
     root_handlers st1 = [c] /\
     (n <= ERROR ->
      In (ToHandler (hid c), setattr "service" (Args.service_name a) err)
         (emitted st1)) /\
     (forall lvl m exc, n <= lvl -> 0 < lvl ->
        emitted (snd (root_log lvl m exc st1)) =
          emitted st1 ++
          [(ToHandler (hid c),
            setattr "service" (Args.service_name a) (mkRecord lvl m exc ∅))]) /\
     (forall lvl m exc, lvl < n \/ lvl <= 0 ->
        root_log lvl m exc st1 = (Ok tt, st1))).
Proof.
  intros Hc Hres Hlvl Hfmt Hfile Hfail err.
  exists (configured_state a w cfg n f st).
  rewrite setup_fresh by assumption.
  split; [now apply configure_ok|].
  unfold configured_state, final_handlers, own_handlers, error_records.
  rewrite Hfile, Hfail. simpl.
  split; [reflexivity|]. split; [reflexivity|].
  split; [now destruct (should_log_to_console cfg)|]. split.
  - now destruct (should_log_to_console cfg).
  - intros ->. simpl. split; [reflexivity|]. split.
    + intros Hn. apply in_or_app. right.
      assert (H40 : (ERROR >=? n) = true) by (apply Z.geb_le; lia).
      rewrite H40. unfold deliver. simpl. rewrite H40. simpl. left. reflexivity.
    + split.
      * intros lvl m exc Hle Hpos.
        rewrite root_log_attached by (simpl; discriminate).
        unfold isEnabledFor, manager_disable. simpl.
        assert (Hdis : (0 >=? lvl) = false).
        { destruct (0 >=? lvl) eqn:E; [|reflexivity]. apply Z.geb_le in E. lia. }
        assert (Hge : (lvl >=? n) = true) by (apply Z.geb_le; lia).
        rewrite Hdis, Hge. unfold deliver. simpl. rewrite !Hge. reflexivity.
      * intros lvl m exc Hlow.
        rewrite root_log_attached by (simpl; discriminate).
        unfold isEnabledFor, manager_disable. simpl.
        destruct (0 >=? lvl) eqn:Ed; [reflexivity|].
        assert (Hge : (lvl >=? n) = false).
        { destruct (lvl >=? n) eqn:E; [|reflexivity].
          apply Z.geb_le in E.
          assert (0 < lvl) by (destruct (Z.leb_spec lvl 0) as [Hl|Hl];
                               [apply Z.geb_le in Hl; congruence | lia]).
          lia. }
        now rewrite Hge.
Qed.

Lemma file_failure_is_contained_witness :
  let w := world_mkdir_fails ∅ in
  exists st1,
    setup_logging Args.defaults w initial_state = (Ok tt, st1) /\
    List.filter is_file (root_handlers st1) = [] /\
    length (handled st1) = 2%nat.
Proof.
  intros w.
  destruct (file_failure_is_contained Args.defaults w initial_state
              (mkConfig "INFO" DEFAULT_LOG_FORMAT true true "logs" "app.log"
                 10485760 5)
              20 DEFAULT_LOG_FORMAT (OSError "File exists")
              eq_refl eq_refl eq_refl eq_refl eq_refl eq_refl)
    as (st1 & Hrun & Hh & _ & _ & Hf & _).
  exists st1. split; [exact Hrun|]. split; [exact Hf|].
  rewrite Hh. reflexivity.
Defined.

(** ** C7 *)

Lemma attached_In (i : nat) (hs : list Handler) :
  attached i hs = true -> exists h, In h hs /\ hid h = i.
Proof.
  unfold attached. rewrite existsb_exists. intros (h & Hin & Heq).
  apply Nat.eqb_eq in Heq. eauto.
Qed.

Lemma handler_ids_In (h : Handler) (hs : list Handler) :
  In h hs -> hid h ∈ handler_ids hs.
Proof.
  intros Hin. unfold handler_ids. apply elem_of_list_to_set.
  apply list_elem_of_fmap. exists h. split; [reflexivity|].
  now apply list_elem_of_In.
Qed.

(** C7. A first call that returns has closed every handler that was
    attached before it and has detached it; the handlers attached
    afterwards are objects created during that call, at most one console
    handler and at most one file handler.  They are exactly what the run
    attaches after the reset: the stdout console handler when the console
    is enabled, followed by the rotating file handler when the file
    output is enabled and could be built (failing both, the one stderr
    handler the library installs for the closing record).  Later calls
    keep that list, and after any sequence of calls made from an
    unconfigured process, once the flag is set the root logger carries at
    most one set of sinks. *)
Theorem sinks_are_replaced (a : Args.t) (w : World) (st st1 : State) :
  is_configured st = false ->
  well_formed st ->
  setup_logging a w st = (Ok tt, st1) ->
  (forall h, In h (root_handlers st) ->
     hid h ∈ closed st1 /\ attached (hid h) (root_handlers st1) = false) /\
  (forall h, In h (root_handlers st1) -> (next_id st <= hid h)%nat) /\
  one_set_of_sinks (root_handlers st1) /\
  (forall calls, root_handlers (snd (run_calls calls st1)) = root_handlers st1) /\
  (forall calls st0,
     is_configured st0 = false ->
     is_configured (snd (run_calls calls st0)) = true ->
     one_set_of_sinks (root_handlers (snd (run_calls calls st0)))) /\
  (exists cfg n f,
     resolve a w = Ok cfg /\
     checkLevel (numeric_level (log_level_str cfg)) = Ok n /\
     Formatter (log_format_str cfg) = Ok f /\
     let k := next_id st in
     let console :=
       if should_log_to_console cfg then [console_handler_of a n f k] else [] in
     let file :=
       if should_log_to_file cfg then
         match fs_failure w cfg with
         | Some _ => []
         | None => [file_handler_of a cfg n f k (length console + S k)]
         end
       else [] in
     root_handlers st1 =
       match console ++ file with
       | [] => [basic_handler (S k)]
       | hs => hs
       end /\
     (should_log_to_console cfg = true ->
        exists rest, root_handlers st1 = console_handler_of a n f k :: rest) /\
     (should_log_to_file cfg = true -> fs_failure w cfg = None ->
        exists front i,
          root_handlers st1 = front ++ [file_handler_of a cfg n f k i] /\
          List.filter is_file front = []) /\
     (should_log_to_console cfg = false ->
        Forall (fun h => hsink h <> StreamSink Stdout) (root_handlers st1)) /\
     (should_log_to_file cfg = false \/ fs_failure w cfg <> None ->
        List.filter is_file (root_handlers st1) = [])).
Proof.
  intros Hc Hwf Hrun.
  destruct (setup_fresh_ok a w st st1 Hc Hrun)
    as (cfg & n & f & Hres & Hlvl & Hfmt & ->).
  unfold configured_state. simpl.
  split; [|split; [|split; [|split; [|split]]]].
  - intros h Hin. split.
    + apply elem_of_union_l. now apply handler_ids_In.
    + destruct (attached (hid h) _) eqn:Hatt; [|reflexivity].
      apply attached_In in Hatt. destruct Hatt as (h' & Hin' & Heq).
      apply final_handlers_fresh in Hin'.
      unfold well_formed in Hwf. rewrite List.Forall_forall in Hwf.
      specialize (Hwf h Hin). lia.
  - intros h Hin. apply final_handlers_fresh in Hin. lia.
  - apply final_handlers_sinks.
  - intros calls. now rewrite run_calls_configured.
  - intros calls st0 Hc0. apply run_calls_sinks. rewrite Hc0. discriminate.
  - exists cfg, n, f.
    split; [assumption|]. split; [assumption|]. split; [assumption|].
    unfold final_handlers, own_handlers.
    split; [reflexivity|].
    destruct (should_log_to_console cfg), (should_log_to_file cfg),
      (fs_failure w cfg); simpl;
      (split; [first [discriminate | intros _; eexists; reflexivity]|]);
      (split; [first [discriminate
                     | intros _ H; discriminate H
                     | intros _ _; first
                         [ exists [console_handler_of a n f (next_id st)];
                           eexists; split; reflexivity
                         | exists []; eexists; split; reflexivity ] ]|]);
      (split; [first [discriminate
                     | intros _; repeat (constructor; [simpl; discriminate|]);
                       constructor]|]);
      intros [H | H]; first [discriminate H | reflexivity | now destruct H].
Qed.

Lemma sinks_are_replaced_witness :
  let st1 := snd (setup_logging Args.defaults (world_ok ∅) cluttered_state) in
  one_set_of_sinks (root_handlers st1) /\
  (0%nat ∈ closed st1 /\ attached 0 (root_handlers st1) = false) /\
  map hid (root_handlers st1) = [3%nat; 4%nat] /\
  map is_file (root_handlers st1) = [false; true].
Proof.
  intros st1.
  assert (Hwf : well_formed cluttered_state).
  { unfold well_formed, cluttered_state. simpl. repeat constructor. }
  assert (Hrun : setup_logging Args.defaults (world_ok ∅) cluttered_state
                 = (Ok tt, st1)).
  { vm_compute. reflexivity. }
  destruct (sinks_are_replaced Args.defaults (world_ok ∅) cluttered_state st1
              eq_refl Hwf Hrun)
    as (H1 & _ & H3 & _ & _ & cfg & n & f & Hres & _ & _ & Hlist & _).
  split; [exact H3|]. split.
  - apply (H1 (mkHandler 0 (StreamSink Stderr) NOTSET None [])).
    simpl. auto.
  - vm_compute in Hres. inversion Hres; subst cfg.
    rewrite Hlist. split; reflexivity.
Defined.

(** ** C8 *)




(** ** C9 *)

(** C9. [ServiceNameFilter.filter] sets the record's [service] attribute to
    the name the filter was built with, whether or not the record had one,
    leaves every other attribute and field alone, and returns true; the
    result does not depend on which instance bound to that name is used.
    Through a handler's filter list it therefore never stops a record. *)
Theorem filter_stamps_and_passes (f : ServiceNameFilter.t) (r : LogRecord) :
  snd (ServiceNameFilter.filter f r) = true /\
  attrs (fst (ServiceNameFilter.filter f r)) !! "service"
    = Some (ServiceNameFilter.service_name f) /\
  (forall k : string, k <> "service" ->
     attrs (fst (ServiceNameFilter.filter f r)) !! k = attrs r !! k) /\
  levelno (fst (ServiceNameFilter.filter f r)) = levelno r /\
  msg (fst (ServiceNameFilter.filter f r)) = msg r /\
  exc_info (fst (ServiceNameFilter.filter f r)) = exc_info r /\
  (forall (i : nat) (s : string),
     ServiceNameFilter.service_name (ServiceNameFilter.init i s) = s) /\
  (forall g : ServiceNameFilter.t,
     ServiceNameFilter.service_name g = ServiceNameFilter.service_name f ->
     ServiceNameFilter.filter g r = ServiceNameFilter.filter f r) /\
  (forall fs : list ServiceNameFilter.t, snd (Filterer_filter fs r) = true).
Proof.
  unfold ServiceNameFilter.filter. simpl. repeat split.
  - apply lookup_insert_eq.
  - intros k Hk. now apply lookup_insert_ne.
  - intros g Hg. now rewrite Hg.
  - intros fs. revert r. induction fs as [|g fs IH]; intros r; simpl; [reflexivity|].
    apply IH.
Qed.

Lemma filter_stamps_and_passes_witness :
  let f := ServiceNameFilter.init 0 "gateway" in
  let g := ServiceNameFilter.init 7 "gateway" in
  let r := mkRecord INFO (Text "tick") None {["service" := "old"; "thread" := "main"]} in
  attrs (fst (ServiceNameFilter.filter f r)) !! "service" = Some "gateway" /\
  attrs (fst (ServiceNameFilter.filter f r)) !! "thread" = Some "main" /\
  ServiceNameFilter.filter g r = ServiceNameFilter.filter f r.
Proof.
  intros f g r.
  destruct (filter_stamps_and_passes f r) as (_ & H1 & H2 & _ & _ & _ & _ & H3 & _).
  split; [exact H1|]. split.
  - rewrite (H2 "thread"); [reflexivity | discriminate].
  - apply H3. reflexivity.
Defined.

(** ** C10 *)

(** C10. A first call that returns has set the flag.  It returns whenever
    the numeric fields parse, the level is accepted and the format is
    valid, and then also when the file sink could not be built (no file
    handler is attached) and when both outputs are disabled (the routine
    attaches no sink of its own; the closing [logging.info] then makes the
    standard library install its default stderr handler).  Every later
    call is ignored. *)
Theorem first_call_sets_flag (a : Args.t) (w : World) (st : State) :
  is_configured st = false ->
  (forall st1, setup_logging a w st = (Ok tt, st1) ->
     is_configured st1 = true /\
     forall calls, run_calls calls st1 = (map (fun _ => Ok tt) calls, st1)) /\
  (forall cfg n f,
     resolve a w = Ok cfg ->
     checkLevel (numeric_level (log_level_str cfg)) = Ok n ->
     Formatter (log_format_str cfg) = Ok f ->
     exists st1,
       setup_logging a w st = (Ok tt, st1) /\ is_configured st1 = true /\
       (should_log_to_file cfg = true -> fs_failure w cfg <> None ->
          List.filter is_file (root_handlers st1) = []) /\
       (should_log_to_console cfg = false -> should_log_to_file cfg = false ->
          own_handlers a w cfg n f (next_id st) = [] /\
          root_handlers st1 = [basic_handler (S (next_id st))])).
Proof.
  intros Hc. split.
  - intros st1 Hrun.
    destruct (setup_fresh_ok a w st st1 Hc Hrun) as (cfg & n & f & _ & _ & _ & ->).
    split; [reflexivity|]. intros calls. now apply run_calls_configured.
  - intros cfg n f Hres Hlvl Hfmt. exists (configured_state a w cfg n f st).
    rewrite setup_fresh by assumption.
    split; [now apply configure_ok|]. split; [reflexivity|].
    unfold configured_state, final_handlers, own_handlers. simpl. split.
    + intros Hfile Hfail. rewrite Hfile.
      destruct (fs_failure w cfg); [|contradiction].
      now destruct (should_log_to_console cfg).
    + intros -> ->. split; reflexivity.
Qed.

Lemma first_call_sets_flag_witness :
  let a := Args.mk "svc" None (Some false) (Some false) None None None None None in
  is_configured (snd (setup_logging a (world_ok ∅) initial_state)) = true /\
  is_configured
    (snd (setup_logging Args.defaults (world_mkdir_fails ∅) initial_state)) = true.
Proof.
  intros a. split.
  - apply (first_call_sets_flag a (world_ok ∅) initial_state eq_refl).
    vm_compute. reflexivity.
  - apply (first_call_sets_flag Args.defaults (world_mkdir_fails ∅) initial_state
             eq_refl).
    vm_compute. reflexivity.
Defined.

(** * Further properties of [setup_logging] and [ServiceNameFilter] *)

(** ** The three places a first call can raise *)

Lemma configure_raise_resolve (a : Args.t) (w : World) (st : State) (e : exn) :
  resolve a w = Raise e -> configure a w st = (Raise e, st).
Proof. intros Hres. after_resolve Hres. reflexivity. Qed.

Lemma configure_raise_level (a : Args.t) (w : World) (st : State)
    (cfg : Config) (e : exn) :
  resolve a w = Ok cfg ->
  checkLevel (numeric_level (log_level_str cfg)) = Raise e ->
  configure a w st = (Raise e, st).
Proof.
  intros Hres Hlvl. after_resolve Hres. after_setLevel Hlvl. reflexivity.
Qed.

Lemma configure_raise_format (a : Args.t) (w : World) (st : State)
    (cfg : Config) (n : Z) (e : exn) :
  resolve a w = Ok cfg ->
  checkLevel (numeric_level (log_level_str cfg)) = Ok n ->
  Formatter (log_format_str cfg) = Raise e ->
  configure a w st = (Raise e, stripped_state n st).
Proof.
  intros Hres Hlvl Hfmt.
  after_resolve Hres. after_setLevel Hlvl. after_reset. now rewrite Hfmt.
Qed.

Lemma resolve_raises (a : Args.t) (w : World) (e : exn) :
  resolve a w = Raise e ->
  exists txt,
    e = ValueError_int txt /\ PyInt.int txt = None /\
    (environ w !! "LOG_MAX_BYTES" = Some txt \/
     environ w !! "LOG_BACKUP_COUNT" = Some txt).
Proof.
  assert (Henv : forall k d e', environ_int w k d = Raise e' ->
            exists txt, e' = ValueError_int txt /\ PyInt.int txt = None /\
                        environ w !! k = Some txt).
  { intros k d e' H. unfold environ_int in H.
    destruct (environ w !! k) as [txt|]; [|discriminate].
    unfold parse_int in H. destruct (PyInt.int txt) eqn:Hi; [discriminate|].
    inversion H. eauto. }
  assert (Hor : forall o alt e', int_or o alt = Raise e' -> alt = Raise e').
  { intros o alt e' H. unfold int_or in H.
    destruct o as [n|]; [|assumption].
    destruct (n =? 0); [assumption|discriminate]. }
  unfold resolve, resolve_max_bytes, resolve_backup_count. intros H.
  destruct (int_or (Args.max_bytes a) _) as [mb|e1] eqn:Hmb.
  - destruct (int_or (Args.backup_count a) _) as [bc|e2] eqn:Hbc; [discriminate|].
    inversion H; subst. apply Hor, Henv in Hbc.
    destruct Hbc as (txt & -> & Hi & Hk). eauto.
  - inversion H; subst. apply Hor, Henv in Hmb.
    destruct Hmb as (txt & -> & Hi & Hk). eauto.
Qed.

Lemma checkLevel_raises (v : pyval) (e : exn) :
  checkLevel v = Raise e ->
  (exists s, e = ValueError_level s) \/ e = TypeError_level.
Proof.
  unfold checkLevel. destruct v as [z|s|]; try discriminate.
  - destruct (nameToLevel s); [discriminate|]. intros H. inversion H. eauto.
  - intros H. inversion H. auto.
Qed.

Lemma Formatter_raises (fmt : string) (e : exn) :
  Formatter fmt = Raise e ->
  e = ValueError_format (PercentStyle.fmt_or_default fmt) /\
  PercentStyle.validate (PercentStyle.fmt_or_default fmt) = false.
Proof.
  unfold Formatter.
  destruct (PercentStyle.validate _) eqn:Hv; [discriminate|].
  intros H. inversion H. auto.
Qed.

(** X1. A first call returns exactly when the two numeric fields parse,
    the level is accepted by [setLevel] and the format string is valid.
    When it raises, the exception is the [ValueError] of [int] on the text
    of [LOG_MAX_BYTES] or [LOG_BACKUP_COUNT], the [ValueError] or
    [TypeError] of the level check, or the [ValueError] of an invalid
    format; what the file-system calls raise never reaches the caller. *)
Theorem first_call_outcome (a : Args.t) (w : World) (st : State) :
  is_configured st = false ->
  (fst (setup_logging a w st) = Ok tt <->
   exists cfg n f,
     resolve a w = Ok cfg /\
     checkLevel (numeric_level (log_level_str cfg)) = Ok n /\
     Formatter (log_format_str cfg) = Ok f) /\
  (forall e, fst (setup_logging a w st) = Raise e ->
     (exists txt, e = ValueError_int txt /\ PyInt.int txt = None /\
        (environ w !! "LOG_MAX_BYTES" = Some txt \/
         environ w !! "LOG_BACKUP_COUNT" = Some txt)) \/
     (exists s, e = ValueError_level s) \/
     e = TypeError_level \/
     (exists fmt, e = ValueError_format fmt /\ PercentStyle.validate fmt = false)).
Proof.
  intros Hc. rewrite setup_fresh by assumption.
  destruct (resolve a w) as [cfg|e0] eqn:Hres.
  - destruct (checkLevel (numeric_level (log_level_str cfg))) as [n|e0] eqn:Hlvl.
    + destruct (Formatter (log_format_str cfg)) as [f|e0] eqn:Hfmt.
      * rewrite (configure_ok a w st cfg n f) by assumption. simpl. split.
        -- split; [intros _; eauto 6 | reflexivity].
        -- discriminate.
      * rewrite (configure_raise_format a w st cfg n e0) by assumption. simpl.
        split.
        -- split; [discriminate|].
           intros (cfg' & n' & f' & H1 & H2 & H3). congruence.
        -- intros e He. inversion He; subst.
           apply Formatter_raises in Hfmt. destruct Hfmt as [-> Hv].
           right. right. right. eauto.
    + rewrite (configure_raise_level a w st cfg e0) by assumption. simpl. split.
      * split; [discriminate|].
        intros (cfg' & n' & f' & H1 & H2 & H3). congruence.
      * intros e He. inversion He; subst.
        apply checkLevel_raises in Hlvl. tauto.
  - rewrite (configure_raise_resolve a w st e0) by assumption. simpl. split.
    + split; [discriminate|].
      intros (cfg' & n' & f' & H1 & H2 & H3). congruence.
    + intros e He. inversion He; subst. left. now apply (resolve_raises a w).
Qed.

Lemma first_call_outcome_witness :
  fst (setup_logging Args.defaults (world_mkdir_fails ∅) initial_state) = Ok tt.
Proof.
  destruct (first_call_outcome Args.defaults (world_mkdir_fails ∅) initial_state
              eq_refl) as [Hiff _].
  apply Hiff.
  exists (mkConfig "INFO" DEFAULT_LOG_FORMAT true true "logs" "app.log" 10485760 5),
    20, DEFAULT_LOG_FORMAT.
  repeat split; reflexivity.
Defined.

(** ** A call that raises *)

Lemma setup_raise_cases (a : Args.t) (w : World) (st st' : State) (e : exn) :
  is_configured st = false ->
  setup_logging a w st = (Raise e, st') ->
  (st' = st /\ forall fmt, e <> ValueError_format fmt) \/
  (exists n fmt, st' = stripped_state n st /\ e = ValueError_format fmt).
Proof.
  intros Hc Hrun. rewrite setup_fresh in Hrun by assumption.
  destruct (resolve a w) as [cfg|e0] eqn:Hres.
  - destruct (checkLevel (numeric_level (log_level_str cfg))) as [n|e0] eqn:Hlvl.
    + destruct (Formatter (log_format_str cfg)) as [f|e0] eqn:Hfmt.
      * rewrite (configure_ok a w st cfg n f) in Hrun by assumption. discriminate.
      * rewrite (configure_raise_format a w st cfg n e0) in Hrun by assumption.
        inversion Hrun; subst. right.
        apply Formatter_raises in Hfmt. destruct Hfmt as [-> _]. eauto.
    + rewrite (configure_raise_level a w st cfg e0) in Hrun by assumption.
      inversion Hrun; subst. left. split; [reflexivity|].
      apply checkLevel_raises in Hlvl. destruct Hlvl as [[s ->] | ->]; discriminate.
  - rewrite (configure_raise_resolve a w st e0) in Hrun by assumption.
    inversion Hrun; subst. left. split; [reflexivity|].
    apply resolve_raises in Hres. destruct Hres as (txt & -> & _). discriminate.
Qed.

(** X2. A first call that raises leaves the flag false and has created
    and emitted no record.  Unless the exception is that of an invalid
    format string the process state is exactly as before; for an invalid
    format string (raised on line 95, after the reset of lines 89-91) the
    root logger is left without any handler and every handler that was
    attached has been closed. *)
Theorem failed_call_effects (a : Args.t) (w : World) (st st' : State) (e : exn) :
  is_configured st = false ->
  setup_logging a w st = (Raise e, st') ->
  is_configured st' = false /\
  handled st' = handled st /\
  emitted st' = emitted st /\
  ((forall fmt, e <> ValueError_format fmt) -> st' = st) /\
  ((exists fmt, e = ValueError_format fmt) ->
     root_handlers st' = [] /\
     closed st' = handler_ids (root_handlers st) ∪ closed st /\
     (forall h, In h (root_handlers st) -> hid h ∈ closed st')).
Proof.
  intros Hc Hrun.
  destruct (setup_raise_cases a w st st' e Hc Hrun)
    as [[-> Hne] | (n & fmt & -> & ->)].
  - split; [assumption|]. split; [reflexivity|]. split; [reflexivity|].
    split; [reflexivity|]. intros [fmt ->]. now destruct (Hne fmt).
  - unfold stripped_state. simpl.
    split; [assumption|]. split; [reflexivity|]. split; [reflexivity|].
    split; [intros Hne; now destruct (Hne fmt)|]. intros _.
    split; [reflexivity|]. split; [reflexivity|].
    intros h Hin. apply elem_of_union_l.
    unfold handler_ids. apply elem_of_list_to_set, list_elem_of_fmap.
    exists h. split; [reflexivity | now apply list_elem_of_In].
Qed.

Lemma failed_call_effects_witness :
  let a := Args.mk "svc" None None None None None (Some "plain") None None in
  let st' := snd (setup_logging a (world_ok ∅) cluttered_state) in
  is_configured st' = false /\ root_handlers st' = [] /\ emitted st' = [].
Proof.
  intros a st'.
  destruct (failed_call_effects a (world_ok ∅) cluttered_state st'
              (ValueError_format "plain") eq_refl)
    as (H1 & _ & H3 & _ & H5).
  { vm_compute. reflexivity. }
  split; [exact H1|]. split.
  - apply H5. exists "plain". reflexivity.
  - rewrite H3. reflexivity.
Defined.

(** X3. A call that raised does not get in the way of a later one: a call
    that would have returned on the state before the failed call does
    exactly the same after it, result and final state alike. *)
Theorem retry_after_failure (a a2 : Args.t) (w w2 : World) (st st' : State)
    (e : exn) :
  is_configured st = false ->
  setup_logging a w st = (Raise e, st') ->
  fst (setup_logging a2 w2 st) = Ok tt ->
  setup_logging a2 w2 st' = setup_logging a2 w2 st /\
  run_calls [(a, w); (a2, w2)] st = ([Raise e; Ok tt], snd (setup_logging a2 w2 st)).
Proof.
  intros Hc Hrun Hok.
  assert (Heq : setup_logging a2 w2 st' = setup_logging a2 w2 st).
  { destruct (setup_raise_cases a w st st' e Hc Hrun)
      as [[-> _] | (n0 & fmt & -> & ->)]; [reflexivity|].
    destruct (setup_logging a2 w2 st) as [o2 st2] eqn:Hrun2.
    simpl in Hok. subst o2.
    destruct (setup_fresh_ok a2 w2 st st2 Hc Hrun2)
      as (cfg & n & f & Hres & Hlvl & Hfmt & _).
    rewrite <- Hrun2.
    rewrite !setup_fresh by (assumption || exact Hc).
    rewrite !(configure_ok a2 w2 _ cfg n f) by assumption.
    unfold configured_state, stripped_state, handler_ids. simpl.
    now rewrite (left_id_L ∅ (∪)). }
  split; [exact Heq|].
  simpl. rewrite Hrun, Heq.
  destruct (setup_logging a2 w2 st) as [o st2]. simpl in *. now subst.
Qed.

Lemma retry_after_failure_witness :
  let bad := world_ok {["LOG_FORMAT" := "plain"]} in
  run_calls [(Args.defaults, bad); (Args.defaults, world_ok ∅)] cluttered_state
  = ([Raise (ValueError_format "plain"); Ok tt],
     snd (setup_logging Args.defaults (world_ok ∅) cluttered_state)).
Proof.
  intros bad.
  apply (retry_after_failure Args.defaults Args.defaults bad (world_ok ∅)
           cluttered_state (snd (setup_logging Args.defaults bad cluttered_state))).
  - reflexivity.
  - vm_compute. reflexivity.
  - vm_compute. reflexivity.
Defined.

(** ** The handlers a run creates *)

Lemma deliver_stamps (flt : ServiceNameFilter.t) (hs : list Handler)
    (r : LogRecord) (t : target) (r' : LogRecord) :
  Forall (fun h => hfilters h = [flt]) hs ->
  In (t, r') (deliver hs r) ->
  attrs r' !! "service" = Some (ServiceNameFilter.service_name flt) /\
  levelno r' = levelno r /\ msg r' = msg r /\ exc_info r' = exc_info r /\
  exists h, In h hs /\ t = ToHandler (hid h).
Proof.
  intros Hall. revert r. induction Hall as [|h hs Hh Hall IH]; intros r Hin.
  - destruct Hin.
  - unfold deliver in Hin. fold deliver in Hin.
    destruct (levelno r >=? hlevel h).
    + rewrite Hh in Hin. simpl in Hin. destruct Hin as [Heq | Hin].
      * inversion Heq; subst. simpl. rewrite lookup_insert_eq.
        repeat split. exists h. split; [now left | reflexivity].
      * apply IH in Hin. simpl in Hin.
        destruct Hin as (H1 & H2 & H3 & H4 & h' & Hin' & ->).
        repeat split; try assumption. exists h'. split; [now right | reflexivity].
    + apply IH in Hin.
      destruct Hin as (H1 & H2 & H3 & H4 & h' & Hin' & ->).
      repeat split; try assumption. exists h'. split; [now right | reflexivity].
Qed.

Lemma own_handlers_filters (a : Args.t) (w : World) (cfg : Config) (n : Z)
    (f : string) (k : nat) :
  Forall (fun h =>
            hfilters h = [ServiceNameFilter.init k (Args.service_name a)] /\
            hlevel h = n /\ hformatter h = Some f)
    (own_handlers a w cfg n f k).
Proof.
  unfold own_handlers.
  destruct (should_log_to_console cfg), (should_log_to_file cfg),
    (fs_failure w cfg); simpl; repeat constructor.
Qed.

Lemma final_own (a : Args.t) (w : World) (cfg : Config) (n : Z) (f : string)
    (k : nat) :
  own_handlers a w cfg n f k <> [] ->
  final_handlers a w cfg n f k = own_handlers a w cfg n f k.
Proof.
  unfold final_handlers. now destruct (own_handlers a w cfg n f k).
Qed.

Lemma own_handlers_nonempty (a : Args.t) (w : World) (cfg : Config) (n : Z)
    (f : string) (k : nat) :
  own_handlers a w cfg n f k <> [] <->
  should_log_to_console cfg = true \/
  (should_log_to_file cfg = true /\ fs_failure w cfg = None).
Proof.
  unfold own_handlers.
  destruct (should_log_to_console cfg), (should_log_to_file cfg),
    (fs_failure w cfg); simpl; split; intros H;
    try discriminate; try tauto; try (now left); try (now right);
    destruct H as [H | [H1 H2]]; discriminate.
Qed.

(** X4. When a first call returns with a sink of its own attached (console
    enabled, or file enabled and built), all attached handlers share one
    filter bound to the given service name, the level of the root logger
    and one formatter holding the resolved format; every record they emit,
    during the call and afterwards, carries that service name and keeps
    its level and message. *)
Theorem own_sinks_stamp_service (a : Args.t) (w : World) (st st1 : State) :
  is_configured st = false ->
  setup_logging a w st = (Ok tt, st1) ->
  resolve_console a w = true \/
  (resolve_file a w = true /\
   mkdir w (Join ProjectRoot (resolve_dir a w)) = None /\
   open_file w (Join (Join ProjectRoot (resolve_dir a w)) (resolve_filename a w))
     = None) ->
  (exists flt f,
     ServiceNameFilter.service_name flt = Args.service_name a /\
     Formatter (resolve_format a w) = Ok f /\
     Forall (fun h => hfilters h = [flt] /\ hlevel h = root_level st1 /\
                      hformatter h = Some f)
       (root_handlers st1)) /\
  (forall r t r', In (t, r') (deliver (root_handlers st1) r) ->
     attrs r' !! "service" = Some (Args.service_name a) /\
     levelno r' = levelno r /\ msg r' = msg r) /\
  (forall t r', In (t, r') (emitted st1) -> In (t, r') (emitted st) \/
     attrs r' !! "service" = Some (Args.service_name a)).
Proof.
  intros Hc Hrun Hown.
  destruct (setup_fresh_ok a w st st1 Hc Hrun)
    as (cfg & n & f & Hres & Hlvl & Hfmt & ->).
  destruct (resolve_fields a w cfg Hres) as (_ & Hf & Hcon & Hfil & Hdir & Hname & _).
  assert (Hne : own_handlers a w cfg n f (next_id st) <> []).
  { apply own_handlers_nonempty. unfold fs_failure.
    rewrite Hcon, Hfil, Hdir, Hname.
    destruct Hown as [H | (H1 & H2 & H3)]; [now left | right].
    rewrite H2. auto. }
  unfold configured_state. simpl. rewrite (final_own _ _ _ _ _ _ Hne).
  pose proof (own_handlers_filters a w cfg n f (next_id st)) as Hall.
  assert (Hflt : Forall (fun h => hfilters h =
                   [ServiceNameFilter.init (next_id st) (Args.service_name a)])
                   (own_handlers a w cfg n f (next_id st))).
  { eapply List.Forall_impl; [|exact Hall]. simpl. tauto. }
  split; [|split].
  - exists (ServiceNameFilter.init (next_id st) (Args.service_name a)), f.
    split; [reflexivity|]. split; [now rewrite <- Hf|]. exact Hall.
  - intros r t r' Hin.
    destruct (deliver_stamps _ _ _ _ _ Hflt Hin) as (H1 & H2 & H3 & _).
    auto.
  - intros t r' Hin. apply in_app_or in Hin. destruct Hin as [Hin | Hin]; [now left|].
    right. apply in_flat_map in Hin. destruct Hin as (r & _ & Hin).
    now destruct (deliver_stamps _ _ _ _ _ Hflt Hin) as (H1 & _).
Qed.

Lemma own_sinks_stamp_service_witness :
  Forall (fun e : target * LogRecord =>
            attrs (snd e) !! "service" = Some "default_service")
    (emitted (snd (setup_logging Args.defaults (world_ok ∅) initial_state))).
Proof.
  destruct (own_sinks_stamp_service Args.defaults (world_ok ∅) initial_state
              (snd (setup_logging Args.defaults (world_ok ∅) initial_state)))
    as (_ & _ & H).
  - reflexivity.
  - vm_compute. reflexivity.
  - left. reflexivity.
  - apply List.Forall_forall. intros [t r'] Hin.
    destruct (H t r' Hin) as [Hold | Hnew]; [destruct Hold | exact Hnew].
Defined.

(** ** Level names and ranks *)

Lemma numeric_level_rank (s : string) (n : Z) :
  checkLevel (numeric_level s) = Ok n -> In n standard_ranks.
Proof.
  unfold numeric_level, getattr_logging, logging_attr.
  repeat match goal with
         | |- context [String.eqb ?x ?y] => destruct (String.eqb x y)
         end;
    simpl; intros H; inversion H; subst; unfold standard_ranks;
    unfold CRITICAL, FATAL, ERROR, WARNING, WARN, INFO, DEBUG, NOTSET; simpl; tauto.
Qed.

(** X5. A level string that equals one of the eight severity names in any
    capitalisation gets that name's rank ("warn" and "warning" 30, "fatal"
    and "critical" 50); a first call that returns with it sets the root
    logger to that rank and every handler it creates to the same rank: the
    stdout console handler when the console is enabled, the file handler
    when the file sink is built.  Only the library's default stderr
    handler stays at NOTSET. *)
Theorem level_names_any_case (s nm : string) :
  In nm severity_names ->
  PyStr.eq_nocase s nm = true ->
  exists n,
    nameToLevel nm = Some n /\
    checkLevel (numeric_level s) = Ok n /\
    forall a w st st1,
      is_configured st = false ->
      setup_logging a w st = (Ok tt, st1) ->
      resolve_level a w = s ->
      root_level st1 = n /\
      Forall (fun h => match hsink h with
                       | StreamSink Stderr => hlevel h = NOTSET
                       | _ => hlevel h = n
                       end)
        (root_handlers st1) /\
      (resolve_console a w = true ->
         exists c, In c (root_handlers st1) /\
                   hsink c = StreamSink Stdout /\ hlevel c = n) /\
      (resolve_file a w = true ->
       mkdir w (Join ProjectRoot (resolve_dir a w)) = None ->
       open_file w
         (Join (Join ProjectRoot (resolve_dir a w)) (resolve_filename a w)) = None ->
         exists h, In h (root_handlers st1) /\ is_file h = true /\ hlevel h = n).
Proof.
  intros Hnm Hs.
  assert (Hup : PyStr.upper s = nm).
  { apply eq_nocase_upper in Hs. rewrite Hs.
    unfold severity_names in Hnm. simpl in Hnm.
    repeat (destruct Hnm as [<- | Hnm]; [reflexivity|]). destruct Hnm. }
  assert (Hn : exists n, nameToLevel nm = Some n /\ checkLevel (numeric_level s) = Ok n).
  { unfold numeric_level. rewrite Hup.
    unfold severity_names in Hnm. simpl in Hnm.
    repeat (destruct Hnm as [<- | Hnm]; [eexists; split; reflexivity|]).
    destruct Hnm. }
  destruct Hn as (n & Hn1 & Hn2). exists n. split; [assumption|]. split; [assumption|].
  intros a w st st1 Hc Hrun Hres.
  destruct (setup_fresh_ok a w st st1 Hc Hrun)
    as (cfg & n' & f & Hcfg & Hlvl & _ & ->).
  destruct (resolve_fields a w cfg Hcfg)
    as (Hl & _ & Hcon & Hfil & Hdir & Hname & _).
  rewrite Hl, Hres, Hn2 in Hlvl. inversion Hlvl; subst n'.
  unfold configured_state, final_handlers, own_handlers, fs_failure. simpl.
  rewrite Hcon, Hfil, Hdir, Hname.
  split; [reflexivity|].
  destruct (resolve_console a w), (resolve_file a w),
    (mkdir w (Join ProjectRoot (resolve_dir a w))),
    (open_file w (Join (Join ProjectRoot (resolve_dir a w)) (resolve_filename a w)));
    simpl;
    (split; [repeat (constructor; [simpl; reflexivity|]); constructor|]);
    (split; [first [discriminate
                   | intros _; eexists; split; [left; reflexivity|];
                     split; reflexivity]|]);
    first [ discriminate
          | intros _ H; discriminate H
          | intros _ _ H; discriminate H
          | intros _ _ _; eexists; split;
            [first [right; left; reflexivity | left; reflexivity]|];
            split; reflexivity ].
Qed.

Lemma level_names_any_case_witness :
  let a := Args.mk "svc" (Some "dEbUg") None None None None None None None in
  let st1 := snd (setup_logging a (world_ok ∅) initial_state) in
  checkLevel (numeric_level "Warn") = Ok 30 /\
  root_level st1 = 10 /\
  (exists c, In c (root_handlers st1) /\
             hsink c = StreamSink Stdout /\ hlevel c = 10) /\
  (exists h, In h (root_handlers st1) /\ is_file h = true /\ hlevel h = 10).
Proof.
  intros a st1. split.
  - destruct (level_names_any_case "Warn" "WARN") as (n & H1 & H2 & _);
      [simpl; tauto | reflexivity |].
    inversion H1; subst. exact H2.
  - destruct (level_names_any_case "dEbUg" "DEBUG") as (n & H1 & _ & H3);
      [simpl; tauto | reflexivity |].
    inversion H1; subst.
    destruct (H3 a (world_ok ∅) initial_state st1)
      as (Hroot & _ & Hcon & Hfile);
      [reflexivity | vm_compute; reflexivity | reflexivity |].
    split; [exact Hroot|]. split.
    + apply Hcon. reflexivity.
    + apply Hfile; reflexivity.
Defined.

(** X13. The level a first call that returns gives the root logger is
    always one of the six standard ranks; a level argument written as a
    number is not a level name and is ranked as INFO. *)
Theorem resolved_rank_is_standard (a : Args.t) (w : World) (st st1 : State) :
  is_configured st = false ->
  setup_logging a w st = (Ok tt, st1) ->
  In (root_level st1) standard_ranks /\
  (forall c t, resolve_level a w = String c t -> PyStr.is_digit c = true ->
     root_level st1 = INFO).
Proof.
  intros Hc Hrun.
  destruct (setup_fresh_ok a w st st1 Hc Hrun)
    as (cfg & n & f & Hcfg & Hlvl & _ & ->).
  destruct (resolve_fields a w cfg Hcfg) as (Hl & _).
  unfold configured_state. simpl. split.
  - now apply (numeric_level_rank (log_level_str cfg)).
  - intros c t Hs Hd. rewrite Hl, Hs in Hlvl.
    assert (Hnone : logging_attr (PyStr.upper (String c t)) = None).
    { simpl. unfold PyStr.upper_char.
      assert (Hlow : PyStr.is_lower c = false).
      { revert Hd. destruct c as [[] [] [] [] [] [] [] []]; vm_compute;
          (reflexivity || discriminate). }
      rewrite Hlow. revert Hd.
      destruct c as [[] [] [] [] [] [] [] []]; vm_compute;
        (reflexivity || discriminate). }
    unfold numeric_level, getattr_logging in Hlvl. rewrite Hnone in Hlvl.
    now inversion Hlvl.
Qed.

Lemma resolved_rank_is_standard_witness :
  root_level
    (snd (setup_logging
            (Args.mk "svc" (Some "10") None None None None None None None)
            (world_ok ∅) initial_state)) = INFO.
Proof.
  destruct (resolved_rank_is_standard
              (Args.mk "svc" (Some "10") None None None None None None None)
              (world_ok ∅) initial_state
              (snd (setup_logging
                      (Args.mk "svc" (Some "10") None None None None None None None)
                      (world_ok ∅) initial_state)) eq_refl) as [_ H];
    [vm_compute; reflexivity|].
  apply (H "1"%char "0"); reflexivity.
Defined.

(** ** Records logged after the set-up *)

Lemma deliver_all (hs : list Handler) (r : LogRecord) :
  Forall (fun h => hlevel h <= levelno r) hs ->
  map fst (deliver hs r) = map (fun h => ToHandler (hid h)) hs.
Proof.
  intros Hall. revert r Hall. induction hs as [|h t IH]; intros r Hall.
  - reflexivity.
  - inversion Hall as [|? ? Hh Ht]; subst.
    unfold deliver; fold deliver.
    assert (Hge : (levelno r >=? hlevel h) = true) by (apply Z.geb_le; lia).
    rewrite Hge.
    assert (Hflt : forall fs r0, snd (Filterer_filter fs r0) = true /\
                                 levelno (fst (Filterer_filter fs r0)) = levelno r0).
    { induction fs as [|g fs IHfs]; intros r0; simpl; [auto|].
      destruct (IHfs (setattr "service" (ServiceNameFilter.service_name g) r0))
        as [H1 H2]. split; [exact H1|]. rewrite H2. reflexivity. }
    destruct (Hflt (hfilters h) r) as [Hrv Hlv].
    destruct (Filterer_filter (hfilters h) r) as [r1 rv]. simpl in *. subst rv.
    simpl. f_equal. apply IH. now rewrite Hlv.
Qed.

(** X6. After a first call that returned, a record logged on the root
    logger below the resolved level, or of level 0 or less, changes
    nothing; a record of positive level at or above the resolved level is
    created once and emitted exactly once by every attached handler, in
    the order of attachment, and leaves handlers and flag alone. *)
Theorem records_after_setup (a : Args.t) (w : World) (st st1 : State)
    (lvl : Z) (m : message) (exc : option exn) :
  is_configured st = false ->
  setup_logging a w st = (Ok tt, st1) ->
  (lvl < root_level st1 \/ lvl <= 0 -> root_log lvl m exc st1 = (Ok tt, st1)) /\
  (root_level st1 <= lvl -> 0 < lvl ->
   exists st2,
     root_log lvl m exc st1 = (Ok tt, st2) /\
     handled st2 = handled st1 ++ [mkRecord lvl m exc ∅] /\
     emitted st2 = emitted st1 ++ deliver (root_handlers st1) (mkRecord lvl m exc ∅) /\
     map fst (deliver (root_handlers st1) (mkRecord lvl m exc ∅))
       = map (fun h => ToHandler (hid h)) (root_handlers st1) /\
     root_handlers st2 = root_handlers st1 /\ is_configured st2 = true).
Proof.
  intros Hc Hrun.
  destruct (setup_fresh_ok a w st st1 Hc Hrun)
    as (cfg & n & f & Hcfg & Hlvl & _ & ->).
  assert (Hne : root_handlers (configured_state a w cfg n f st) <> []).
  { unfold configured_state. simpl.
    destruct (final_handlers_cases a w cfg n f (next_id st)) as [H|[H|[H|H]]];
      rewrite H; discriminate. }
  rewrite root_log_attached by exact Hne.
  unfold isEnabledFor, manager_disable, configured_state in *. simpl in *. split.
  - intros Hlow.
    destruct (0 >=? lvl) eqn:Ed; [reflexivity|].
    assert (Hpos : 0 < lvl).
    { destruct (Z.lt_ge_cases 0 lvl) as [Hl|Hl]; [exact Hl|].
      apply Z.geb_le in Hl. congruence. }
    assert (Hge : (lvl >=? n) = false).
    { destruct (lvl >=? n) eqn:E; [|reflexivity]. apply Z.geb_le in E. lia. }
    now rewrite Hge.
  - intros Hle Hpos.
    assert (Hdis : (0 >=? lvl) = false).
    { destruct (0 >=? lvl) eqn:E; [|reflexivity]. apply Z.geb_le in E. lia. }
    assert (Hge : (lvl >=? n) = true) by (apply Z.geb_le; lia).
    rewrite Hdis, Hge. eexists. split; [reflexivity|]. simpl.
    split; [reflexivity|]. split; [reflexivity|]. split; [|split; reflexivity].
    apply deliver_all. simpl.
    assert (H0 : 0 <= n).
    { apply numeric_level_rank in Hlvl. unfold standard_ranks in Hlvl.
      unfold CRITICAL, ERROR, WARNING, INFO, DEBUG, NOTSET in Hlvl. simpl in Hlvl.
      lia. }
    destruct (final_handlers_cases a w cfg n f (next_id st)) as [H|[H|[H|H]]];
      rewrite H; repeat constructor; simpl; unfold NOTSET; lia.
Qed.

Lemma records_after_setup_witness :
  let st1 := snd (setup_logging Args.defaults (world_ok ∅) initial_state) in
  root_log DEBUG (Text "noise") None st1 = (Ok tt, st1) /\
  exists st2,
    root_log ERROR (Text "boom") None st1 = (Ok tt, st2) /\
    length (emitted st2) = 4%nat.
Proof.
  intros st1.
  assert (Hrun : setup_logging Args.defaults (world_ok ∅) initial_state = (Ok tt, st1))
    by (vm_compute; reflexivity).
  split.
  - apply (records_after_setup Args.defaults (world_ok ∅) initial_state st1
             DEBUG (Text "noise") None eq_refl Hrun).
    left. vm_compute. reflexivity.
  - destruct (records_after_setup Args.defaults (world_ok ∅) initial_state st1
                ERROR (Text "boom") None eq_refl Hrun) as [_ H].
    destruct H as (st2 & H1 & _ & H3 & H4 & _);
      [vm_compute; discriminate | reflexivity |].
    exists st2. split; [exact H1|].
    rewrite H3, length_app.
    rewrite <- (length_map fst (deliver _ _)), H4, length_map. reflexivity.
Defined.

(** ** Which handlers a run leaves attached *)

Lemma fs_failure_resolved (a : Args.t) (w : World) (cfg : Config) :
  resolve a w = Ok cfg ->
  fs_failure w cfg =
    match mkdir w (Join ProjectRoot (resolve_dir a w)) with
    | Some e => Some e
    | None =>
        open_file w
          (Join (Join ProjectRoot (resolve_dir a w)) (resolve_filename a w))
    end.
Proof.
  intros Hres.
  destruct (resolve_fields a w cfg Hres) as (_ & _ & _ & _ & Hdir & Hname & _).
  unfold fs_failure. now rewrite Hdir, Hname.
Qed.

(** X7. After a first call that returned: when the console is disabled
    and no file sink was built (disabled, or its construction failed), the
    one attached handler is the library's default stderr handler, which
    emits every record as it is, without a service name; when the routine
    attached a sink of its own, no stderr handler is attached. *)
Theorem fallback_stderr_handler (a : Args.t) (w : World) (st st1 : State) :
  is_configured st = false ->
  setup_logging a w st = (Ok tt, st1) ->
  let file_built :=
    resolve_file a w = true /\
    mkdir w (Join ProjectRoot (resolve_dir a w)) = None /\
    open_file w (Join (Join ProjectRoot (resolve_dir a w)) (resolve_filename a w))
      = None in
  (resolve_console a w = false -> ~ file_built ->
     root_handlers st1 = [basic_handler (S (next_id st))] /\
     forall r, NOTSET <= levelno r ->
       deliver (root_handlers st1) r = [(ToHandler (S (next_id st)), r)]) /\
  (resolve_console a w = true \/ file_built ->
     Forall (fun h => hsink h <> StreamSink Stderr) (root_handlers st1)).
Proof.
  intros Hc Hrun file_built.
  destruct (setup_fresh_ok a w st st1 Hc Hrun)
    as (cfg & n & f & Hres & _ & _ & ->).
  destruct (resolve_fields a w cfg Hres) as (_ & _ & Hcon & Hfil & _).
  pose proof (fs_failure_resolved a w cfg Hres) as Hfs.
  pose proof (own_handlers_nonempty a w cfg n f (next_id st)) as Hown.
  rewrite Hcon, Hfil in Hown.
  assert (Hbuilt : fs_failure w cfg = None <->
            mkdir w (Join ProjectRoot (resolve_dir a w)) = None /\
            open_file w (Join (Join ProjectRoot (resolve_dir a w))
                           (resolve_filename a w)) = None).
  { rewrite Hfs. destruct (mkdir w _); [|tauto].
    split; [discriminate | intros [H _]; discriminate]. }
  unfold configured_state. simpl. unfold file_built. split.
  - intros Hcon' Hnot.
    assert (Hnil : own_handlers a w cfg n f (next_id st) = []).
    { destruct (own_handlers a w cfg n f (next_id st)) as [|h t] eqn:E;
        [reflexivity|].
      exfalso. destruct Hown as [Hown _].
      destruct Hown as [H | [H1 H2]]; [discriminate | congruence |].
      apply Hnot. split; [assumption|]. now apply Hbuilt. }
    unfold final_handlers. rewrite Hnil. split; [reflexivity|].
    intros r Hr. unfold deliver, basic_handler. simpl.
    assert (Hge : (levelno r >=? NOTSET) = true) by (apply Z.geb_le; lia).
    now rewrite Hge.
  - intros Hyes.
    assert (Hne : own_handlers a w cfg n f (next_id st) <> []).
    { apply Hown. destruct Hyes as [H | (H1 & H2 & H3)]; [now left | right].
      split; [assumption|]. now apply Hbuilt. }
    rewrite (final_own _ _ _ _ _ _ Hne). unfold own_handlers.
    destruct (should_log_to_console cfg), (should_log_to_file cfg),
      (fs_failure w cfg); simpl;
      repeat (constructor; [simpl; discriminate|]); constructor.
Qed.

Lemma fallback_stderr_handler_witness :
  let a := Args.mk "svc" None (Some false) None None None None None None in
  root_handlers (snd (setup_logging a (world_mkdir_fails ∅) initial_state))
    = [basic_handler 1].
Proof.
  intros a.
  destruct (fallback_stderr_handler a (world_mkdir_fails ∅) initial_state
              (snd (setup_logging a (world_mkdir_fails ∅) initial_state)) eq_refl)
    as [H _]; [vm_compute; reflexivity|].
  apply H; [reflexivity|]. intros (_ & Hmk & _). discriminate Hmk.
Defined.

(** X8. When the file output is enabled and directory and file can be
    opened, a first call that returns attaches exactly one rotating file
    handler: at [ProjectRoot / dir / filename], with the resolved
    [maxBytes] and [backupCount], encoded as utf-8, at the level of the
    root logger.  It comes after the console handler, which writes to
    stdout and has the same level, formatter and filter. *)
Theorem file_sink_parameters (a : Args.t) (w : World) (st st1 : State) :
  is_configured st = false ->
  setup_logging a w st = (Ok tt, st1) ->
  resolve_file a w = true ->
  mkdir w (Join ProjectRoot (resolve_dir a w)) = None ->
  open_file w (Join (Join ProjectRoot (resolve_dir a w)) (resolve_filename a w))
    = None ->
  exists h mb bc,
    resolve_max_bytes a w = Ok mb /\ resolve_backup_count a w = Ok bc /\
    hsink h =
      RotatingFileSink
        (Join (Join ProjectRoot (resolve_dir a w)) (resolve_filename a w))
        mb bc "utf-8" /\
    hlevel h = root_level st1 /\
    List.filter is_file (root_handlers st1) = [h] /\
    (resolve_console a w = true ->
       exists c, root_handlers st1 = [c; h] /\ hsink c = StreamSink Stdout /\
                 hlevel c = root_level st1 /\ hformatter c = hformatter h /\
                 hfilters c = hfilters h) /\
    (resolve_console a w = false -> root_handlers st1 = [h]).
Proof.
  intros Hc Hrun Hfile Hmk Hop.
  destruct (setup_fresh_ok a w st st1 Hc Hrun)
    as (cfg & n & f & Hres & _ & _ & ->).
  destruct (resolve_fields a w cfg Hres)
    as (_ & _ & Hcon & Hfil & Hdir & Hname & Hmb & Hbc).
  pose proof (fs_failure_resolved a w cfg Hres) as Hfs.
  rewrite Hmk, Hop in Hfs.
  unfold configured_state, final_handlers, own_handlers. simpl.
  rewrite Hcon, Hfil, Hfile, Hfs.
  destruct (resolve_console a w); simpl.
  - exists (file_handler_of a cfg n f (next_id st) (S (S (next_id st)))),
      (max_log_bytes cfg), (backup_log_count cfg).
    unfold file_handler_of. simpl. rewrite Hdir, Hname.
    repeat split; try assumption; try discriminate.
    intros _. eexists. repeat split.
  - exists (file_handler_of a cfg n f (next_id st) (S (next_id st))),
      (max_log_bytes cfg), (backup_log_count cfg).
    unfold file_handler_of. simpl. rewrite Hdir, Hname.
    repeat split; try assumption; try discriminate.
Qed.

Lemma file_sink_parameters_witness :
  let w := world_ok {["LOG_MAX_BYTES" := "2048"; "LOG_DIR" := "var"]} in
  let a := Args.mk "svc" None None None None (Some "x.log") None None (Some 3) in
  exists h,
    List.filter is_file (root_handlers (snd (setup_logging a w initial_state))) = [h] /\
    hsink h = RotatingFileSink (Join (Join ProjectRoot "var") "x.log") 2048 3 "utf-8".
Proof.
  intros w a.
  destruct (file_sink_parameters a w initial_state
              (snd (setup_logging a w initial_state)) eq_refl)
    as (h & mb & bc & Hmb & Hbc & Hs & _ & Hf & _);
    [vm_compute; reflexivity | reflexivity | reflexivity | reflexivity |].
  exists h. split; [exact Hf|].
  rewrite Hs. vm_compute in Hmb, Hbc. inversion Hmb; inversion Hbc; subst.
  reflexivity.
Defined.

(** ** Arguments with a false value *)

Lemma str_or_truthy (o : option string) (alt : string) :
  str_or (truthy_str o) alt = str_or o alt.
Proof.
  destruct o as [s|]; [|reflexivity]. simpl.
  destruct (PyStr.truthy s) eqn:E; simpl; [now rewrite E | reflexivity].
Qed.

Lemma int_or_truthy (o : option Z) (alt : outcome Z) :
  int_or (truthy_int o) alt = int_or o alt.
Proof.
  destruct o as [n|]; [|reflexivity]. simpl.
  destruct (n =? 0) eqn:E; simpl; [reflexivity | now rewrite E].
Qed.

(** X9. An empty string or a zero passed as an argument is treated like a
    missing argument: the call resolves the same configuration, and does
    the same, as the call with those arguments replaced by [None]; the
    environment variable, or else the default, decides. *)
Theorem falsy_arguments_count_as_null (a : Args.t) (w : World) (st : State) :
  resolve (drop_falsy a) w = resolve a w /\
  setup_logging (drop_falsy a) w st = setup_logging a w st /\
  (Args.level a = Some "" -> resolve_level a w =
     environ_get w "LOG_LEVEL" (DEFAULT_LOG_LEVEL w)) /\
  (Args.max_bytes a = Some 0 -> resolve_max_bytes a w =
     environ_int w "LOG_MAX_BYTES" DEFAULT_LOG_MAX_BYTES).
Proof.
  assert (Hres : resolve (drop_falsy a) w = resolve a w).
  { unfold resolve, resolve_level, resolve_format, resolve_console, resolve_file,
      resolve_dir, resolve_filename, resolve_max_bytes, resolve_backup_count.
    simpl. now rewrite !str_or_truthy, !int_or_truthy. }
  split; [exact Hres|]. split.
  - unfold setup_logging, configure, attach_and_mark. now rewrite Hres.
  - split.
    + intros H. unfold resolve_level. now rewrite H.
    + intros H. unfold resolve_max_bytes. now rewrite H.
Qed.

Lemma falsy_arguments_count_as_null_witness :
  let a := Args.mk "svc" (Some "") None None None None None (Some 0) None in
  let w := world_ok {["LOG_LEVEL" := "DEBUG"]} in
  resolve_level a w = "DEBUG" /\ resolve_max_bytes a w = Ok 10485760.
Proof.
  intros a w.
  destruct (falsy_arguments_count_as_null a w initial_state) as (_ & _ & H1 & H2).
  split; [rewrite H1 by reflexivity | rewrite H2 by reflexivity]; reflexivity.
Defined.

(** ** Filters in sequence *)

Lemma setattr_twice (k v v' : string) (r : LogRecord) :
  setattr k v' (setattr k v r) = setattr k v' r.
Proof. unfold setattr. simpl. now rewrite insert_insert_eq. Qed.

(** X10. Filtering is idempotent and the last filter wins: a record that
    passes through several [ServiceNameFilter]s is the record the last one
    alone would produce, and it is never suppressed. *)
Theorem filter_last_wins (f g : ServiceNameFilter.t) (r : LogRecord)
    (fs : list ServiceNameFilter.t) :
  fst (ServiceNameFilter.filter g (fst (ServiceNameFilter.filter f r)))
    = fst (ServiceNameFilter.filter g r) /\
  fst (ServiceNameFilter.filter f (fst (ServiceNameFilter.filter f r)))
    = fst (ServiceNameFilter.filter f r) /\
  Filterer_filter (fs ++ [g]) r = ServiceNameFilter.filter g r /\
  Filterer_filter [] r = (r, true).
Proof.
  unfold ServiceNameFilter.filter. simpl.
  split; [apply setattr_twice|]. split; [apply setattr_twice|].
  split; [|reflexivity].
  revert r. induction fs as [|h fs IH]; intros r; simpl; [reflexivity|].
  rewrite IH. now rewrite setattr_twice.
Qed.

(** ** A sequence of calls as a whole *)

Lemma configured_state_handled (a : Args.t) (w : World) (cfg : Config) (n : Z)
    (f : string) (st : State) :
  (length (handled (configured_state a w cfg n f st))
     <= length (handled st) + 2)%nat.
Proof.
  unfold configured_state, error_records, info_records. simpl.
  rewrite !length_app.
  destruct (should_log_to_file cfg); [destruct (fs_failure w cfg)|];
    destruct (ERROR >=? n); destruct (INFO >=? n); simpl; lia.
Qed.

(** X11. Any sequence of calls from an unconfigured process consists of
    calls that raise, followed (if any call returns) by calls that all
    return; the flag is set exactly when some call returned, and the whole
    sequence makes the root logger create at most two records. *)
Theorem call_sequence_shape (calls : list (Args.t * World)) (st0 : State) :
  is_configured st0 = false ->
  exists k,
    Forall (fun o => is_ok o = false) (take k (fst (run_calls calls st0))) /\
    Forall (fun o => o = Ok tt) (drop k (fst (run_calls calls st0))) /\
    (is_configured (snd (run_calls calls st0)) = true <->
       (k < length calls)%nat) /\
    (length (handled (snd (run_calls calls st0)))
       <= length (handled st0) + 2)%nat.
Proof.
  revert st0. induction calls as [|[a w] rest IH]; intros st0 Hc.
  - exists 0%nat. simpl. split; [constructor|]. split; [constructor|].
    split; [|lia]. split; [rewrite Hc; discriminate | lia].
  - simpl. destruct (setup_logging a w st0) as [o st1] eqn:Hrun.
    destruct o as [[]|e].
    + destruct (setup_fresh_ok a w st0 st1 Hc Hrun) as (cfg & n & f & _ & _ & _ & ->).
      rewrite run_calls_configured by reflexivity.
      exists 0%nat. simpl. split; [constructor|]. split.
      * constructor; [reflexivity|]. clear.
        induction rest as [|c rest IHrest]; simpl; constructor; auto.
      * split; [split; [intros _; lia | intros _; reflexivity]|].
        apply (configured_state_handled a w cfg n f st0).
    + assert (Hkeep : is_configured st1 = false /\ handled st1 = handled st0).
      { destruct (setup_raise_cases a w st0 st1 e Hc Hrun)
          as [[-> _] | (n0 & fmt & -> & _)]; split; (assumption || reflexivity). }
      destruct Hkeep as [Hc1 Hh].
      destruct (IH st1 Hc1) as (k & H1 & H2 & H3 & H4).
      destruct (run_calls rest st1) as [os st2]. simpl in *.
      exists (S k). simpl. split; [constructor; [reflexivity | assumption]|].
      split; [assumption|]. split; [rewrite H3; lia|]. now rewrite <- Hh.
Qed.

Lemma call_sequence_shape_witness :
  let bad := world_ok {["LOG_BACKUP_COUNT" := "many"]} in
  exists k,
    Forall (fun o => o = Ok tt)
      (drop k (fst (run_calls [(Args.defaults, bad); (Args.defaults, world_ok ∅);
                               (Args.defaults, bad)] initial_state))).
Proof.
  intros bad.
  destruct (call_sequence_shape
              [(Args.defaults, bad); (Args.defaults, world_ok ∅); (Args.defaults, bad)]
              initial_state eq_refl) as (k & _ & H & _).
  exists k. exact H.
Defined.

(** ** A call without arguments in an empty environment *)

(** X12. A call without arguments, with none of the eight variables set,
    resolves to the built-in defaults (level, directory and file name of
    the constants, the default format, both outputs enabled, 10485760
    bytes, 5 backups).  It returns exactly when the constants' level is
    accepted, and then, if the file can be opened, attaches the console
    handler and the file handler in this order. *)
Theorem call_without_configuration (w : World) (st : State) :
  is_configured st = false ->
  Forall (fun k => environ w !! k = None)
    ["LOG_LEVEL"; "LOG_FORMAT"; "LOG_TO_CONSOLE"; "LOG_TO_FILE"; "LOG_DIR";
     "LOG_FILENAME"; "LOG_MAX_BYTES"; "LOG_BACKUP_COUNT"] ->
  let cfg := mkConfig (Params.log_level (params w)) DEFAULT_LOG_FORMAT true true
               (Params.log_dir_name (params w)) (Params.log_filename (params w))
               10485760 5 in
  resolve Args.defaults w = Ok cfg /\
  (fst (setup_logging Args.defaults w st) = Ok tt <->
   is_ok (checkLevel (numeric_level (Params.log_level (params w)))) = true) /\
  (forall n, checkLevel (numeric_level (Params.log_level (params w))) = Ok n ->
     fs_failure w cfg = None ->
     root_handlers (snd (setup_logging Args.defaults w st)) =
       [console_handler_of Args.defaults n DEFAULT_LOG_FORMAT (next_id st);
        file_handler_of Args.defaults cfg n DEFAULT_LOG_FORMAT (next_id st)
          (S (S (next_id st)))]).
Proof.
  intros Hc Henv cfg.
  repeat match goal with
         | H : Forall _ (_ :: _) |- _ => inversion H; clear H; subst
         end.
  assert (Hres : resolve Args.defaults w = Ok cfg).
  { unfold resolve, resolve_max_bytes, resolve_backup_count, resolve_level,
      resolve_format, resolve_console, resolve_file, resolve_dir, resolve_filename.
    simpl.
    rewrite !environ_int_unset by assumption.
    rewrite !environ_bool_unset by assumption.
    rewrite !environ_get_unset by assumption. reflexivity. }
  assert (Hfmt : Formatter (log_format_str cfg) = Ok DEFAULT_LOG_FORMAT)
    by (vm_compute; reflexivity).
  split; [exact Hres|]. split.
  - rewrite setup_fresh by assumption.
    destruct (checkLevel (numeric_level (Params.log_level (params w))))
      as [n|e] eqn:Hl.
    + rewrite (configure_ok Args.defaults w st cfg n DEFAULT_LOG_FORMAT)
        by assumption.
      simpl. tauto.
    + rewrite (configure_raise_level Args.defaults w st cfg e) by assumption.
      simpl. split; discriminate.
  - intros n Hl Hfs. rewrite setup_fresh by assumption.
    rewrite (configure_ok Args.defaults w st cfg n DEFAULT_LOG_FORMAT)
      by assumption.
    unfold configured_state, final_handlers, own_handlers. simpl.
    now rewrite Hfs.
Qed.

Lemma call_without_configuration_witness :
  is_ok (fst (setup_logging Args.defaults (world_ok ∅) initial_state)) = true.
Proof.
  destruct (call_without_configuration (world_ok ∅) initial_state eq_refl)
    as (_ & Hiff & _).
  { repeat constructor. }
  destruct Hiff as [_ H]. rewrite H; reflexivity.
Defined.
